(** * GeminiVoiceAssistantFKeys: the record / stop / dispatch state machine

    A shallow embedding of [src/voice_agent_core.py].  The module-level
    globals of the script become one record, [state].  Every handler of the
    script is a computation in a small state-and-output monad [M]: it reads
    and writes the globals and emits the calls it makes on its collaborators
    (notifications, threads, the wav writer, the Gemini client, the
    clipboard) as a list of [effect]s, in program order.  A handler that can
    be left by an exception is a computation in [E], which is [M] with an
    [outcome]: it returns a value or raises, and either way the globals and
    the effects up to that point stand.

    Modelling choices, all stated where they are made:
    - clock readings ([time.time()]) are exact rationals; the rounding of the
      float subtraction in the debounce test is not modelled;
    - a handler runs atomically (the script serialises its state changes
      with [processing_lock]); threads interleave at the level of the
      [event]s of the running program;
    - [show_system_notification] is a primitive effect;
    - [winotify.audio] has the sounds [Default], [IM], [Mail], [Reminder],
      [SMS], [LoopingAlarm]..[LoopingAlarm10], [LoopingCall]..[LoopingCall10]
      and [Silent], and no [Caution]: the expression [audio.Caution], which
      the script writes as the [sound] argument of every error notification,
      raises [AttributeError] before [show_system_notification] is called;
    - a string is the UTF-8 encoding of a Python [str];
    - of the log records only those of level WARNING and above are kept:
      the INFO and DEBUG records are progress lines (several carry elapsed
      clock time) and never report a failure. *)

From Stdlib Require Import QArith Lqa Ascii.
From stdpp Require Import gmap strings list.

Local Open Scope string_scope.
Local Open Scope list_scope.

(** ** Configuration constants *)

Definition MODEL_FLASH : string := "gemini-2.5-flash-preview-04-17".
Definition MODEL_PRO : string := "gemini-2.5-pro-preview-03-25".
Definition DEFAULT_MODEL : string := MODEL_PRO.

Definition PROMPT_MODE_TRANSCRIBE : string := "Transcribe".
Definition PROMPT_MODE_ASSISTANT : string := "Assistant".
Definition DEFAULT_PROMPT_MODE : string := PROMPT_MODE_ASSISTANT.

Definition PROMPT_TEXT_TRANSCRIBE : string :=
  "Слушай внимательно, и транскрибируй мои голосовые, и ничего лишнего кроме транскрибации не отправляй, я могу иногда смешивать языки русского и английского, транскрибируй их внимательно и тщательно.".
Definition PROMPT_TEXT_ASSISTANT : string :=
  "Слушай внимательно, ты даешь ответ на мои вопросы, без воды, ясно и понятно.".

(** The [PROMPTS] dict. *)
Definition PROMPTS : gmap string string :=
  <[PROMPT_MODE_TRANSCRIBE := PROMPT_TEXT_TRANSCRIBE]>
    (<[PROMPT_MODE_ASSISTANT := PROMPT_TEXT_ASSISTANT]> ∅).

Definition SAMPLE_RATE : Z := 44100.
Definition CHANNELS : Z := 1.

(** The debounce threshold of [on_key_press], in seconds. *)
Definition DEBOUNCE : Q := 6 # 10.

(** ** Data *)

(** The keys [on_key_press] and [on_key_release] tell apart. *)
Inductive key : Type :=
| Key_shift
| Key_shift_r
| Key_ctrl_l
| Key_ctrl_r
| Key_f9
| Key_other (name : string).

Definition TRIGGER_KEY : key := Key_f9.

Global Instance key_eq_dec : EqDecision key.
Proof. solve_decision. Defined.

(** One audio block delivered by the input stream: [int16] samples of the
    single channel. *)
Definition block : Type := list Z.

(** A [pathlib.Path] below [base_path]: directory and file name. *)
Record path : Type := Path { parent : string; name : string }.

Definition path_str (p : path) : string := parent p +:+ "/" +:+ name p.

Definition AUDIO_DIRECTORY_PATH : string := "audioV6".

Inductive thread : Type :=
| AudioRecordThread
| GeminiThread (audio_filepath : path).

Inductive level : Type := WARNING | ERROR.

(** The [winotify.audio] sounds the script uses and the module has. *)
Inductive sound : Type := Default | LoopingCall2 | Mail | SMS | Reminder.

(** The handle [genai.upload_file] returns. *)
Record uploaded_file : Type := UploadedFile { file_name : string; file_uri : string }.

Inductive effect : Type :=
| Log (l : level) (msg : string)
| Notification (title message : string) (au : sound)
| StartThread (t : thread)
| WriteWav (filepath : path) (rate : Z) (data : list Z)
| UploadFile (p : path) (display_name : string)
| GenerateContent (model : string) (prompt : string) (file : uploaded_file)
| ClipboardCopy (text : string)
| DeleteFile (file : string).

(** The global state variables of the script. *)
Record state : Type := State {
  shift_pressed : bool;
  ctrl_pressed : bool;
  is_recording : bool;
  audio_frames : list block;
  recording_thread : option thread;
  recording_stop_event : bool;
  current_model_name : string;
  current_prompt_mode : string;
  last_hotkey_time : Q
}.

Definition initial_state : state :=
  {| shift_pressed := false;
     ctrl_pressed := false;
     is_recording := false;
     audio_frames := [];
     recording_thread := None;
     recording_stop_event := false;
     current_model_name := DEFAULT_MODEL;
     current_prompt_mode := DEFAULT_PROMPT_MODE;
     last_hotkey_time := 0 |}.

Definition set_shift_pressed (b : bool) (s : state) : state :=
  State b (ctrl_pressed s) (is_recording s) (audio_frames s) (recording_thread s)
        (recording_stop_event s) (current_model_name s) (current_prompt_mode s)
        (last_hotkey_time s).

Definition set_ctrl_pressed (b : bool) (s : state) : state :=
  State (shift_pressed s) b (is_recording s) (audio_frames s) (recording_thread s)
        (recording_stop_event s) (current_model_name s) (current_prompt_mode s)
        (last_hotkey_time s).

Definition set_is_recording (b : bool) (s : state) : state :=
  State (shift_pressed s) (ctrl_pressed s) b (audio_frames s) (recording_thread s)
        (recording_stop_event s) (current_model_name s) (current_prompt_mode s)
        (last_hotkey_time s).

Definition set_audio_frames (fr : list block) (s : state) : state :=
  State (shift_pressed s) (ctrl_pressed s) (is_recording s) fr (recording_thread s)
        (recording_stop_event s) (current_model_name s) (current_prompt_mode s)
        (last_hotkey_time s).

Definition set_recording_thread (t : option thread) (s : state) : state :=
  State (shift_pressed s) (ctrl_pressed s) (is_recording s) (audio_frames s) t
        (recording_stop_event s) (current_model_name s) (current_prompt_mode s)
        (last_hotkey_time s).

Definition set_recording_stop_event (b : bool) (s : state) : state :=
  State (shift_pressed s) (ctrl_pressed s) (is_recording s) (audio_frames s)
        (recording_thread s) b (current_model_name s) (current_prompt_mode s)
        (last_hotkey_time s).

Definition set_current_model_name (m : string) (s : state) : state :=
  State (shift_pressed s) (ctrl_pressed s) (is_recording s) (audio_frames s)
        (recording_thread s) (recording_stop_event s) m (current_prompt_mode s)
        (last_hotkey_time s).

Definition set_current_prompt_mode (m : string) (s : state) : state :=
  State (shift_pressed s) (ctrl_pressed s) (is_recording s) (audio_frames s)
        (recording_thread s) (recording_stop_event s) (current_model_name s) m
        (last_hotkey_time s).

Definition set_last_hotkey_time (t : Q) (s : state) : state :=
  State (shift_pressed s) (ctrl_pressed s) (is_recording s) (audio_frames s)
        (recording_thread s) (recording_stop_event s) (current_model_name s)
        (current_prompt_mode s) t.

(** ** The monad of the handlers: state passing plus emitted effects *)

Definition M (A : Type) : Type := state → A * state * list effect.

Global Instance M_ret : MRet M := λ A (a : A) s, (a, s, []).

Global Instance M_bind : MBind M := λ A B (k : A → M B) (m : M A) s,
  let '(a, s1, e1) := m s in
  let '(b, s2, e2) := k a s1 in
  (b, s2, e1 ++ e2).

Definition get : M state := λ s, (s, s, []).
Definition modify (f : state → state) : M unit := λ s, (tt, f s, []).
Definition emit (e : effect) : M unit := λ s, (tt, s, [e]).

Definition result_of {A} (r : A * state * list effect) : A := r.1.1.
Definition state_of {A} (r : A * state * list effect) : state := r.1.2.
Definition effects_of {A} (r : A * state * list effect) : list effect := r.2.

(** ** Exceptions *)

(** The exception classes the handlers of [submit_audio_to_gemini] tell
    apart; [OtherException] is any other subclass of [Exception]. *)
Inductive exception_class : Type :=
| PermissionDenied
| InvalidArgument
| NotFound
| ResourceExhausted
| OtherException.

Record exception : Type := Exception_ { exc_class : exception_class; exc_text : string }.

Inductive outcome (A : Type) : Type :=
| Returns (a : A)
| Raises (e : exception).
Arguments Returns {A} a.
Arguments Raises {A} e.

(** A handler that returns or raises.  After a raise the rest of the
    sequence is skipped; the globals and the effects so far are kept. *)
Definition E (A : Type) : Type := state → outcome A * state * list effect.

Global Instance E_ret : MRet E := λ A (a : A) s, (Returns a, s, []).

Global Instance E_bind : MBind E := λ A B (k : A → E B) (m : E A) s,
  let '(r, s1, e1) := m s in
  match r with
  | Returns a => let '(b, s2, e2) := k a s1 in (b, s2, e1 ++ e2)
  | Raises e => (Raises e, s1, e1)
  end.

Definition lift {A} (m : M A) : E A := λ s,
  let '(a, s1, e1) := m s in (Returns a, s1, e1).

Definition raise {A} (e : exception) : E A := λ s, (Raises e, s, []).

(** [try: body except Exception as e: handler e]. *)
Definition try_except {A} (body : E A) (handler : exception → E A) : E A := λ s,
  let '(r, s1, e1) := body s in
  match r with
  | Returns a => (Returns a, s1, e1)
  | Raises e => let '(r2, s2, e2) := handler e s1 in (r2, s2, e1 ++ e2)
  end.

(** [try: body finally: final], with a [final] that does not raise: it runs
    whether [body] returned or raised, and the outcome of [body] stands. *)
Definition try_finally {A} (body : E A) (final : M unit) : E A := λ s,
  let '(r, s1, e1) := body s in
  let '(_, s2, e2) := final s1 in
  (r, s2, e1 ++ e2).

(** [AttributeError: module 'winotify.audio' has no attribute 'Caution']. *)
Definition AttributeError_Caution : exception :=
  Exception_ OtherException "module 'winotify.audio' has no attribute 'Caution'".

(** The expression [audio.Caution]. *)
Definition audio_Caution : E sound := raise AttributeError_Caution.

(** ** Core functions *)

Definition show_system_notification (title message : string) (au : sound) : M unit :=
  emit (Notification title message au).

(** *** [audio_recording_worker]

    The worker thread, cut at the points where it touches the globals. *)

(** Lines 128-129: the worker clears the frames and the stop event. *)
Definition audio_recording_worker_begin : M unit :=
  modify (set_audio_frames []);;
  modify (set_recording_stop_event false).

(** Lines 146-149: one turn of the loop that got a block from the queue. *)
Definition audio_recording_worker_append (b : block) : M unit :=
  s ← get;
  if recording_stop_event s then mret tt
  else modify (set_audio_frames (audio_frames s ++ [b])).

(** Lines 154-159: the stream raised; [e] is the text of the exception. *)
Definition audio_recording_worker_crash (e : string) : E unit :=
  lift (emit (Log ERROR "CRITICAL ERROR in audio recording thread!"));;
  au ← audio_Caution;
  lift (show_system_notification "Recording Error" ("Error during recording: " +:+ e) au);;
  lift (modify (set_is_recording false)).

(** *** [start_audio_recording] *)
Definition start_audio_recording : M bool :=
  s ← get;
  if is_recording s then
    emit (Log WARNING "Attempted to start recording, but already recording.");;
    mret false
  else
    modify (set_is_recording true);;
    show_system_notification "Recording Started" "Speak now..." LoopingCall2;;
    modify (set_recording_thread (Some AudioRecordThread));;
    emit (StartThread AudioRecordThread);;
    mret true.

(** *** [stop_audio_recording_and_process]

    What the surroundings answer during one call: whether the recording
    thread is alive before and after [join(timeout=2.0)], the text
    [strftime] gives for the clock, and whether [write_wav] raises (with the
    text of the exception). *)
Record stop_env : Type := StopEnv {
  thread_is_alive : bool;
  thread_is_alive_after_join : bool;
  strftime_now : string;
  write_wav_raises : option string
}.

Definition LF : string := String (Ascii.ascii_of_nat 10) EmptyString.

Definition stop_audio_recording_and_process (env : stop_env) : E bool :=
  s ← lift get;
  if negb (is_recording s) then
    lift (emit (Log WARNING "Attempted to stop recording, but not currently recording."));;
    mret false
  else
    lift (modify (set_recording_stop_event true));;
    let action_was_taken := true in
    lift (match recording_thread s with
          | Some _ =>
              if thread_is_alive env && thread_is_alive_after_join env
              then emit (Log ERROR "Audio recording thread did not finish in time!")
              else mret tt
          | None => mret tt
          end);;
    lift (modify (set_recording_thread None));;
    lift (modify (set_is_recording false));;
    s1 ← lift get;
    let frames := audio_frames s1 in
    match frames with
    | [] =>
        lift (emit (Log ERROR "Recording stopped, but no audio data was captured."));;
        au ← audio_Caution;
        lift (show_system_notification "Recording Error"
                "Failed to record audio (no data)." au);;
        mret action_was_taken
    | _ :: _ =>
        try_finally
          (try_except
             (let recording_data := concat frames in
              let filename := "rec_fkeys_" +:+ strftime_now env +:+ ".wav" in
              let filepath := Path AUDIO_DIRECTORY_PATH filename in
              lift (emit (WriteWav filepath SAMPLE_RATE recording_data));;
              match write_wav_raises env with
              | Some e => raise (Exception_ OtherException e)
              | None =>
                  lift (show_system_notification "Recording Saved"
                          ("File: " +:+ filename +:+ LF +:+ "Sending to Gemini...") Mail);;
                  lift (emit (StartThread (GeminiThread filepath)))
              end)
             (λ e,
                lift (emit (Log ERROR "ERROR during audio saving or processing submission:"));;
                au ← audio_Caution;
                lift (show_system_notification "Processing Error"
                        ("Could not save/send audio: " +:+ exc_text e) au)))
          (modify (set_audio_frames []));;
        mret action_was_taken
    end.

(** *** [submit_audio_to_gemini] *)

(** A member of the [BlockReason] enumeration: an [IntEnum] value, false
    in a condition exactly when its number is 0. *)
Record block_reason_t : Type := BlockReason { br_value : Z; br_name : string }.

Definition truthy (r : block_reason_t) : bool := negb (br_value r =? 0)%Z.

Record safety_rating : Type :=
  SafetyRating { category_name : string; probability_name : string }.

Record prompt_feedback_t : Type :=
  PromptFeedback { block_reason : block_reason_t; safety_ratings : list safety_rating }.

(** The response of [generate_content], as far as the script looks at it:
    [parts] and [text] are what the accessors [.parts] and [.text] do (the
    library raises [ValueError] from them for a response without a
    candidate); [prompt_feedback] is [None] when the attribute is missing or
    false in a condition. *)
Record response_t : Type := Response {
  parts : outcome (list string);
  prompt_feedback : option prompt_feedback_t;
  text : outcome string
}.

(** What the Gemini client and the clipboard answer during one call. *)
Record gemini_env : Type := GeminiEnv {
  upload_file : outcome uploaded_file;
  generate_content : outcome response_t;
  pyperclip_copy_raises : option string;
  delete_file_raises : option string
}.

(** [str.strip()].  The characters it removes are those of [str.isspace]:
    U+0009..U+000D, U+001C..U+0020, U+0085, U+00A0, U+1680, U+2000..U+200A,
    U+2028, U+2029, U+202F, U+205F and U+3000, here in their UTF-8
    encodings of one, two and three bytes. *)
Definition isspace (c : ascii) : bool :=
  let n := Ascii.nat_of_ascii c in
  ((9 <=? n) && (n <=? 13) || (28 <=? n) && (n <=? 32))%nat.

Definition isspace2 (c1 c2 : ascii) : bool :=
  let n1 := Ascii.nat_of_ascii c1 in
  let n2 := Ascii.nat_of_ascii c2 in
  ((n1 =? 194) && ((n2 =? 133) || (n2 =? 160)))%nat.

Definition isspace3 (c1 c2 c3 : ascii) : bool :=
  let n1 := Ascii.nat_of_ascii c1 in
  let n2 := Ascii.nat_of_ascii c2 in
  let n3 := Ascii.nat_of_ascii c3 in
  ((n1 =? 225) && (n2 =? 154) && (n3 =? 128)
   || (n1 =? 226) && (n2 =? 128)
      && ((128 <=? n3) && (n3 <=? 138) || (n3 =? 168) || (n3 =? 169) || (n3 =? 175))
   || (n1 =? 226) && (n2 =? 129) && (n3 =? 159)
   || (n1 =? 227) && (n2 =? 128) && (n3 =? 128))%nat.

(** Drops the leading whitespace, told by the three tests. *)
Fixpoint strip_left (ws1 : ascii → bool) (ws2 : ascii → ascii → bool)
    (ws3 : ascii → ascii → ascii → bool) (s : string) : string :=
  match s with
  | String c1 r1 =>
      if ws1 c1 then strip_left ws1 ws2 ws3 r1
      else
        match r1 with
        | String c2 r2 =>
            if ws2 c1 c2 then strip_left ws1 ws2 ws3 r2
            else
              match r2 with
              | String c3 r3 => if ws3 c1 c2 c3 then strip_left ws1 ws2 ws3 r3 else s
              | EmptyString => s
              end
        | EmptyString => s
        end
  | EmptyString => EmptyString
  end.

Definition lstrip (s : string) : string := strip_left isspace isspace2 isspace3 s.

(** The trailing whitespace is the leading whitespace of the reversed
    bytes, with the bytes of each character in reverse. *)
Definition rstrip (s : string) : string :=
  String.rev (strip_left isspace (λ c2 c1, isspace2 c1 c2)
                         (λ c3 c2 c1, isspace3 c1 c2 c3) (String.rev s)).

Definition strip (s : string) : string := rstrip (lstrip s).

(** [PROMPTS.get(mode, PROMPTS[DEFAULT_PROMPT_MODE])]. *)
Definition prompts_get (mode : string) : string :=
  default (PROMPTS !!! DEFAULT_PROMPT_MODE) (PROMPTS !! mode).

(** An accessor or a client call that returns or raises. *)
Definition from_outcome {A} (o : outcome A) : E A := λ s, (o, s, []).

(** Lines 255-266: the response has no parts. *)
Definition report_empty_response (response : response_t) : E unit :=
  match prompt_feedback response with
  | Some fb =>
      if truthy (block_reason fb) then
        let block_reason_name := br_name (block_reason fb) in
        let error_message :=
          "Request blocked by safety filter (Reason: " +:+ block_reason_name +:+ ")" in
        lift (emit (Log ERROR ("Gemini API ERROR: " +:+ error_message)));;
        lift (foldr (λ rating k,
                 emit (Log WARNING ("  - Safety Rating: Category=" +:+ category_name rating
                                    +:+ ", Probability=" +:+ probability_name rating));; k)
              (mret tt) (safety_ratings fb));;
        au ← audio_Caution;
        lift (show_system_notification "Gemini Error" error_message au)
      else
        lift (emit (Log ERROR "Gemini API ERROR: Response is empty (no parts and no specific block reason)."));;
        au ← audio_Caution;
        lift (show_system_notification "Gemini Error" "Received an empty response from AI." au)
  | None =>
      lift (emit (Log ERROR "Gemini API ERROR: Response is empty (no parts and no specific block reason)."));;
      au ← audio_Caution;
      lift (show_system_notification "Gemini Error" "Received an empty response from AI." au)
  end.

(** Lines 245-278, the [try] body after the upload. *)
Definition gemini_generate (env : gemini_env) (uploaded_audio_file : uploaded_file)
  : E unit :=
  s ← lift get;
  let ai_model := current_model_name s in
  let prompt_text_for_ai := prompts_get (current_prompt_mode s) in
  lift (emit (GenerateContent ai_model prompt_text_for_ai uploaded_audio_file));;
  response ← from_outcome (generate_content env);
  response_parts ← from_outcome (parts response);
  match response_parts with
  | [] => report_empty_response response
  | _ :: _ =>
      t ← from_outcome (text response);
      let ai_response_text := strip t in
      try_except
        (lift (emit (ClipboardCopy ai_response_text));;
         match pyperclip_copy_raises env with
         | Some e_clip => raise (Exception_ OtherException e_clip)
         | None => lift (show_system_notification "Gemini Response" ai_response_text SMS)
         end)
        (λ e_clip,
           lift (emit (Log ERROR ("Failed to copy AI response to clipboard: "
                                  +:+ exc_text e_clip)));;
           au ← audio_Caution;
           lift (show_system_notification "AI Response (Clipboard Error)"
                   ai_response_text au))
  end.

(** Lines 240-278, the body of the [try]: the result is the value of
    [uploaded_audio_file] when the body is left, and the exception it is
    left with, if any. *)
Definition gemini_try (env : gemini_env) (audio_filepath : path)
  : M (option uploaded_file * option exception) :=
  emit (UploadFile audio_filepath (name audio_filepath));;
  match upload_file env with
  | Raises e => mret (None, Some e)
  | Returns uploaded_audio_file =>
      r ← (gemini_generate env uploaded_audio_file : M (outcome unit));
      mret (Some uploaded_audio_file,
            match r with Raises e => Some e | Returns _ => None end)
  end.

(** Lines 280-294, the [except] clauses. *)
Definition gemini_except (e : exception) : E unit :=
  s ← lift get;
  match exc_class e with
  | PermissionDenied =>
      let error_msg :=
        "ACCESS DENIED! Invalid API key or no permission for model '"
          +:+ current_model_name s +:+ "'." in
      lift (emit (Log ERROR error_msg));;
      au ← audio_Caution;
      lift (show_system_notification "Gemini API Error" error_msg au)
  | InvalidArgument | NotFound =>
      let error_msg :=
        "MODEL ERROR! Model '" +:+ current_model_name s +:+ "' not found or invalid." in
      lift (emit (Log ERROR error_msg));;
      au ← audio_Caution;
      lift (show_system_notification "Gemini API Error" error_msg au)
  | ResourceExhausted =>
      let error_msg := "QUOTA ERROR! API request limit reached." in
      lift (emit (Log ERROR error_msg));;
      au ← audio_Caution;
      lift (show_system_notification "Gemini API Error" error_msg au)
  | OtherException =>
      lift (emit (Log ERROR "UNKNOWN ERROR during Gemini interaction:"));;
      au ← audio_Caution;
      lift (show_system_notification "Unknown Gemini Error"
              ("An error occurred: " +:+ exc_text e) au)
  end.

(** Lines 295-302, the [finally] clause. *)
Definition gemini_finally (env : gemini_env) (uploaded_audio_file : option uploaded_file)
  : M unit :=
  match uploaded_audio_file with
  | Some f =>
      emit (DeleteFile (file_name f));;
      match delete_file_raises env with
      | None => mret tt
      | Some e_del =>
          emit (Log ERROR ("Failed to delete uploaded file '" +:+ file_name f
                           +:+ "': " +:+ e_del))
      end
  | None => mret tt
  end.

(** The [try] statement as a whole: an exception the body is left with
    goes to its [except] clause, an exception raised in that clause leaves
    the function, and the [finally] clause runs on the way out. *)
Definition submit_audio_to_gemini (env : gemini_env) (audio_filepath : path) : E unit :=
  r ← lift (gemini_try env audio_filepath);
  try_finally
    match r.2 with
    | Some e => gemini_except e
    | None => mret tt
    end
    (gemini_finally env r.1).

(** *** The two toggles *)

Definition cycle_prompt_mode : M bool :=
  s ← get;
  let new_mode :=
    if String.eqb (current_prompt_mode s) PROMPT_MODE_ASSISTANT
    then PROMPT_MODE_TRANSCRIBE else PROMPT_MODE_ASSISTANT in
  modify (set_current_prompt_mode new_mode);;
  show_system_notification "Mode Changed" ("Prompt Mode: " +:+ new_mode) Reminder;;
  mret true.

(** [name.split('/')[-1]]: what follows the last slash. *)
Fixpoint split_last (s cur : string) : string :=
  match s with
  | EmptyString => cur
  | String c r =>
      if Ascii.eqb c "/"%char then split_last r EmptyString
      else split_last r (cur +:+ String c EmptyString)
  end.

Definition cycle_ai_model : M bool :=
  s ← get;
  let new_model :=
    if String.eqb (current_model_name s) MODEL_PRO then MODEL_FLASH else MODEL_PRO in
  modify (set_current_model_name new_model);;
  show_system_notification "Model Changed"
    ("AI Model: " +:+ split_last new_model EmptyString) Reminder;;
  mret true.

(** ** Hotkey handlers *)

(** [x < y] on clock readings. *)
Definition Qltb (x y : Q) : bool := negb (Qle_bool y x).

(** Lines 349-365 of [on_key_press]: the action chosen by the modifier
    state; the result is [action_performed]. *)
Definition hotkey_action (env : stop_env) : E bool :=
  s ← lift get;
  if shift_pressed s && negb (ctrl_pressed s) then lift cycle_prompt_mode
  else if ctrl_pressed s && negb (shift_pressed s) then lift cycle_ai_model
  else if negb (shift_pressed s) && negb (ctrl_pressed s) then
    if is_recording s then stop_audio_recording_and_process env
    else lift start_audio_recording
  else mret false.

(** [on_key_press(key)], called when the clock reads [current_time]. *)
Definition on_key_press (current_time : Q) (env : stop_env) (k : key) : E unit :=
  if bool_decide (k = Key_shift) || bool_decide (k = Key_shift_r) then
    lift (modify (set_shift_pressed true))
  else if bool_decide (k = Key_ctrl_l) || bool_decide (k = Key_ctrl_r) then
    lift (modify (set_ctrl_pressed true))
  else if bool_decide (k = TRIGGER_KEY) then
    s ← lift get;
    if Qltb (current_time - last_hotkey_time s) DEBOUNCE then mret tt
    else
      action_performed ← hotkey_action env;
      if (action_performed : bool) then lift (modify (set_last_hotkey_time current_time))
      else mret tt
  else mret tt.

Definition on_key_release (k : key) : M unit :=
  if bool_decide (k = Key_shift) || bool_decide (k = Key_shift_r) then
    modify (set_shift_pressed false)
  else if bool_decide (k = Key_ctrl_l) || bool_decide (k = Key_ctrl_r) then
    modify (set_ctrl_pressed false)
  else mret tt.

(** ** The running program

    The listener thread, the recording thread and the Gemini threads take
    turns on the globals.  One [event] is one turn: a key event handled by
    the listener, a step of the recording worker, or a Gemini thread that
    was started earlier and now runs [submit_audio_to_gemini].  The key
    handler returns once the Gemini thread is started, so any number of
    events may come between the stop of a recording and its submission.
    A turn that raises leaves the globals and the trace as they are at the
    raise; what the thread's host does with the exception is not the
    script's, and the turns of the program go on. *)

Record system : Type := System {
  globals : state;
  gemini_threads : list path;
  trace : list effect
}.

Inductive event : Type :=
| KeyPress (current_time : Q) (env : stop_env) (k : key)
| KeyRelease (k : key)
| WorkerBegin
| WorkerBlock (b : block)
| WorkerCrash (e : string)
| GeminiRun (i : nat) (env : gemini_env).

(** The arguments of the Gemini threads started by a handler. *)
Definition spawned (es : list effect) : list path :=
  omap (λ e, match e with StartThread (GeminiThread p) => Some p | _ => None end) es.

Definition run_handler {A} (m : M A) (w : system) : system :=
  let r := m (globals w) in
  System (state_of r) (gemini_threads w ++ spawned (effects_of r)) (trace w ++ effects_of r).

Definition step (w : system) (ev : event) : system :=
  match ev with
  | KeyPress t env k => run_handler (on_key_press t env k) w
  | KeyRelease k => run_handler (on_key_release k) w
  | WorkerBegin => run_handler audio_recording_worker_begin w
  | WorkerBlock b => run_handler (audio_recording_worker_append b) w
  | WorkerCrash e => run_handler (audio_recording_worker_crash e) w
  | GeminiRun i env =>
      match gemini_threads w !! i with
      | Some p =>
          run_handler (submit_audio_to_gemini env p)
            (System (globals w) (delete i (gemini_threads w)) (trace w))
      | None => w
      end
  end.

Definition run (evs : list event) (w : system) : system := foldl step w evs.

Definition initial_system : system := System initial_state [] [].

Definition reachable (w : system) : Prop := ∃ evs, w = run evs initial_system.

(** * Vocabulary of the properties

    Observations on emitted effects, the closed forms of what a handler
    emits, and the concrete inputs used further down. *)

(** The globals after a stop of an active session. *)
Definition stopped (s : state) : state :=
  set_audio_frames []
    (set_is_recording false (set_recording_thread None (set_recording_stop_event true s))).

(** What the join of the recording thread reports. *)
Definition join_report (env : stop_env) (s : state) : list effect :=
  match recording_thread s with
  | Some _ =>
      if thread_is_alive env && thread_is_alive_after_join env
      then [Log ERROR "Audio recording thread did not finish in time!"]
      else []
  | None => []
  end.

Definition recording_path (env : stop_env) : path :=
  Path AUDIO_DIRECTORY_PATH ("rec_fkeys_" +:+ strftime_now env +:+ ".wav").

(** What a stop of an active session emits after the join. *)
Definition finalize_report (env : stop_env) (frames : list block) : list effect :=
  match frames with
  | [] => [Log ERROR "Recording stopped, but no audio data was captured."]
  | _ :: _ =>
      WriteWav (recording_path env) SAMPLE_RATE (concat frames) ::
      match write_wav_raises env with
      | None =>
          [Notification "Recording Saved"
             ("File: " +:+ name (recording_path env) +:+ LF +:+ "Sending to Gemini...") Mail;
           StartThread (GeminiThread (recording_path env))]
      | Some e => [Log ERROR "ERROR during audio saving or processing submission:"]
      end
  end.

(** How a stop of an active session ends. *)
Definition stop_outcome (env : stop_env) (frames : list block) : outcome bool :=
  match frames, write_wav_raises env with
  | _ :: _, None => Returns true
  | _, _ => Raises AttributeError_Caution
  end.

Global Instance path_eq_dec : EqDecision path.
Proof. solve_decision. Defined.

(** The samples last written to the file [p]. *)
Definition written (es : list effect) (p : path) : option (list Z) :=
  last (omap (λ e, match e with
                   | WriteWav q _ d => if decide (q = p) then Some d else None
                   | _ => None
                   end) es).

(** The buffers handed to the submission pipeline: for every Gemini thread
    started, the samples in the file it is given. *)
Definition handed_off (es : list effect) : list (list Z) :=
  omap (written es) (spawned es).

Definition wav_writes (es : list effect) : list (list Z) :=
  omap (λ e, match e with WriteWav _ _ d => Some d | _ => None end) es.

Definition save_failure_env : stop_env :=
  StopEnv true false "20250101_120000" (Some "[Errno 2] No such file or directory").

Definition two_block_session : state :=
  set_recording_thread (Some AudioRecordThread)
    (set_audio_frames [[1; 2]; [3]]%Z (set_is_recording true initial_state)).

(** A burst of presses of the trigger key, one after the other with no
    other event between them; each press comes with its clock reading. *)
Definition press_all (ps : list (Q * stop_env)) : E unit :=
  foldr (λ p k, on_key_press p.1 p.2 TRIGGER_KEY;; k) (mret tt) ps.

(** Each press follows the one before it by less than the threshold. *)
Fixpoint rapid_succession (t : Q) (ts : list Q) : Prop :=
  match ts with
  | [] => True
  | t' :: ts' => (t <= t')%Q ∧ (t' - t < DEBOUNCE)%Q ∧ rapid_succession t' ts'
  end.

Definition env_ok : stop_env := StopEnv true false "20250101_120000" None.

Definition rating_log (rating : safety_rating) : effect :=
  Log WARNING ("  - Safety Rating: Category=" +:+ category_name rating
               +:+ ", Probability=" +:+ probability_name rating).

Definition blocked_message (fb : prompt_feedback_t) : string :=
  "Request blocked by safety filter (Reason: " +:+ br_name (block_reason fb) +:+ ")".

Definition blocked_report (fb : prompt_feedback_t) : list effect :=
  Log ERROR ("Gemini API ERROR: " +:+ blocked_message fb)
    :: map rating_log (safety_ratings fb).

Definition empty_report : list effect :=
  [Log ERROR "Gemini API ERROR: Response is empty (no parts and no specific block reason)."].

(** What [report_empty_response] emits before it raises. *)
Definition empty_response_logs (response : response_t) : list effect :=
  match prompt_feedback response with
  | Some fb => if truthy (block_reason fb) then blocked_report fb else empty_report
  | None => empty_report
  end.

(** The calls a submission makes before it looks at the response. *)
Definition request_effects (s : state) (audio_filepath : path) (f : uploaded_file)
  : list effect :=
  [UploadFile audio_filepath (name audio_filepath);
   GenerateContent (current_model_name s) (prompts_get (current_prompt_mode s)) f].

Definition notifications (es : list effect) : list (string * string * sound) :=
  omap (λ e, match e with Notification t m a => Some (t, m, a) | _ => None end) es.

Definition deletions (es : list effect) : list string :=
  omap (λ e, match e with DeleteFile n => Some n | _ => None end) es.

Definition generation_requests (es : list effect) : list (string * string) :=
  omap (λ e, match e with GenerateContent m p _ => Some (m, p) | _ => None end) es.

Definition blocked_response : response_t :=
  Response (Returns [])
    (Some (PromptFeedback (BlockReason 1 "SAFETY")
            [SafetyRating "HARM_CATEGORY_HARASSMENT" "HIGH"]))
    (Returns "").

Definition bare_response : response_t := Response (Returns []) None (Returns "").

Definition uploaded_example : uploaded_file :=
  UploadedFile "files/abc123" "https://example.invalid/files/abc123".

(** Effects that only report: log records, notifications, the clipboard. *)
Definition reporting (e : effect) : bool :=
  match e with
  | Log _ _ | Notification _ _ _ | ClipboardCopy _ => true
  | _ => false
  end.

Definition upload_failure_env : gemini_env :=
  GeminiEnv (Raises (Exception_ OtherException "503 Service Unavailable"))
            (Returns bare_response) None None.

Definition session_events : list event :=
  [KeyPress 10 env_ok Key_f9; WorkerBegin; WorkerBlock [1; 2]%Z; WorkerBlock [3]%Z;
   KeyPress 15 env_ok Key_f9].

Definition toggle_events : list event :=
  [KeyPress 16 env_ok Key_shift; KeyPress 17 env_ok Key_f9; KeyRelease Key_shift;
   KeyPress 18 env_ok Key_ctrl_l; KeyPress 19 env_ok Key_f9].

Definition gemini_ok : gemini_env :=
  GeminiEnv (Returns uploaded_example)
            (Returns (Response (Returns ["Hello world"]) None (Returns "Hello world")))
            None None.

Definition settings_ok (s : state) : Prop :=
  (current_prompt_mode s = PROMPT_MODE_TRANSCRIBE ∨
   current_prompt_mode s = PROMPT_MODE_ASSISTANT) ∧
  (current_model_name s = MODEL_FLASH ∨ current_model_name s = MODEL_PRO).

(** ** Further observations *)

Definition clipboard_copies (es : list effect) : list string :=
  omap (λ e, match e with ClipboardCopy t => Some t | _ => None end) es.

Definition uploads (es : list effect) : list path :=
  omap (λ e, match e with UploadFile p _ => Some p | _ => None end) es.

Definition written_paths (es : list effect) : list path :=
  omap (λ e, match e with WriteWav p _ _ => Some p | _ => None end) es.

(** The [except] clause that catches an exception of the given class. *)
Definition except_clause (c : exception_class) : nat :=
  match c with
  | PermissionDenied => 0
  | InvalidArgument | NotFound => 1
  | ResourceExhausted => 2
  | OtherException => 3
  end.

(** The recording worker from its start to the moment it has appended the
    given blocks. *)
Definition audio_recording_worker_capture (blocks : list block) : M unit :=
  audio_recording_worker_begin;;
  foldr (λ b k, audio_recording_worker_append b;; k) (mret tt) blocks.

(** The modifier flags are the only difference between two states. *)
Definition same_but_modifiers (s s' : state) : Prop :=
  is_recording s' = is_recording s ∧
  audio_frames s' = audio_frames s ∧
  recording_thread s' = recording_thread s ∧
  recording_stop_event s' = recording_stop_event s ∧
  current_model_name s' = current_model_name s ∧
  current_prompt_mode s' = current_prompt_mode s ∧
  last_hotkey_time s' = last_hotkey_time s.

(** Every path waiting for its Gemini thread, and every path uploaded so
    far, was passed to the wav writer before. *)
Definition uploads_were_written (w : system) : Prop :=
  (∀ p, p ∈ gemini_threads w → p ∈ written_paths (trace w)) ∧
  (∀ p, p ∈ uploads (trace w) → p ∈ written_paths (trace w)).

(** While the session records, the recording thread is registered. *)
Definition recording_has_thread (s : state) : Prop :=
  is_recording s = true → recording_thread s = Some AudioRecordThread.

(** A whole recording: the trigger is pressed, the worker starts and
    appends the blocks, the trigger is pressed again. *)
Definition record_session (t1 : Q) (env1 : stop_env) (blocks : list block)
    (t2 : Q) (env2 : stop_env) : E unit :=
  on_key_press t1 env1 TRIGGER_KEY;;
  lift (audio_recording_worker_capture blocks);;
  on_key_press t2 env2 TRIGGER_KEY.

(** The ERROR record of the [except] clause that catches [e]. *)
Definition except_log (e : exception) (s : state) : effect :=
  Log ERROR
    match exc_class e with
    | PermissionDenied =>
        "ACCESS DENIED! Invalid API key or no permission for model '"
          +:+ current_model_name s +:+ "'."
    | InvalidArgument | NotFound =>
        "MODEL ERROR! Model '" +:+ current_model_name s +:+ "' not found or invalid."
    | ResourceExhausted => "QUOTA ERROR! API request limit reached."
    | OtherException => "UNKNOWN ERROR during Gemini interaction:"
    end.

(** What the [finally] clause of a submission emits. *)
Definition cleanup_effects (env : gemini_env) (up : option uploaded_file) : list effect :=
  match up with
  | Some f =>
      DeleteFile (file_name f) ::
      match delete_file_raises env with
      | Some e_del =>
          [Log ERROR ("Failed to delete uploaded file '" +:+ file_name f
                      +:+ "': " +:+ e_del)]
      | None => []
      end
  | None => []
  end.

Definition logs (es : list effect) : list (level * string) :=
  omap (λ e, match e with Log l m => Some (l, m) | _ => None end) es.

(** The text of a generation that went through: upload and generation
    returned, the response has parts and its text is there. *)
Definition generated_text (env : gemini_env) : option string :=
  match upload_file env with
  | Returns _ =>
      match generate_content env with
      | Returns response =>
          match parts response with
          | Returns (_ :: _) =>
              match text response with
              | Returns t => Some t
              | Raises _ => None
              end
          | _ => None
          end
      | Raises _ => None
      end
  | Raises _ => None
  end.

(** The action ran to its end and reported that it was performed. *)
Definition performed (o : outcome bool) : bool :=
  match o with
  | Returns true => true
  | _ => false
  end.

(** A session that records and has captured nothing. *)
Definition empty_session : state := set_is_recording true initial_state.

Definition NBSP : string := String (Ascii.ascii_of_nat 194) (String (Ascii.ascii_of_nat 160) "").


(** * Properties *)

(** Unfolds the monads so that a handler applied to a state computes. *)
Ltac run_m :=
  unfold result_of, state_of, effects_of, show_system_notification, audio_Caution,
    raise, lift, from_outcome, try_except, try_finally,
    mbind, M_bind, E_bind, mret, M_ret, E_ret, get, modify, emit in *;
  cbn [fst snd app] in *.

(** Projections of a handler result that is already a triple. *)
Ltac proj_m :=
  repeat match goal with
    | |- context [effects_of (?a, ?s, ?es)] => change (effects_of (a, s, es)) with es
    | |- context [state_of (?a, ?s, ?es)] => change (state_of (a, s, es)) with s
    | |- context [result_of (?a, ?s, ?es)] => change (result_of (a, s, es)) with a
    end.

Lemma Qltb_lt (x y : Q) : Qltb x y = true ↔ (x < y)%Q.
Proof.
  unfold Qltb. rewrite negb_true_iff, <- not_true_iff_false, Qle_bool_iff.
  split; [apply Qnot_le_lt | apply Qlt_not_le].
Qed.

Lemma Qltb_ge (x y : Q) : Qltb x y = false ↔ ¬ (x < y)%Q.
Proof. rewrite <- Qltb_lt. destruct (Qltb x y); intuition congruence. Qed.

Lemma lift_run {A} (m : M A) (s : state) :
  lift m s = (Returns (result_of (m s)), state_of (m s), effects_of (m s)).
Proof. unfold lift, result_of, state_of, effects_of. by destruct (m s) as [[a s1] e1]. Qed.

(** ** The embedding at work *)

Example strip_example : strip ("  Hello world " +:+ LF) = "Hello world".
Proof. reflexivity. Qed.

Example strip_unicode_example :
  strip (NBSP +:+ " Hello" +:+ NBSP +:+ "world " +:+ NBSP) = "Hello" +:+ NBSP +:+ "world".
Proof. reflexivity. Qed.

Example split_last_example : split_last "models/gemini-2.5-pro" "" = "gemini-2.5-pro".
Proof. reflexivity. Qed.

(** Press the trigger, capture two blocks, press again, let the Gemini
    thread run: the three samples reach the wav writer in order, the answer
    reaches the clipboard, and the uploaded file is deleted. *)
Example record_and_submit_scenario :
  let w := run (session_events ++ [GeminiRun 0 gemini_ok]) initial_system in
  is_recording (globals w) = false ∧
  wav_writes (trace w) = [[1; 2; 3]%Z] ∧
  filter (λ e, reporting e = false) (trace w)
    = [StartThread AudioRecordThread;
       WriteWav (Path AUDIO_DIRECTORY_PATH "rec_fkeys_20250101_120000.wav") SAMPLE_RATE
                [1; 2; 3]%Z;
       StartThread (GeminiThread (Path AUDIO_DIRECTORY_PATH "rec_fkeys_20250101_120000.wav"));
       UploadFile (Path AUDIO_DIRECTORY_PATH "rec_fkeys_20250101_120000.wav")
                  "rec_fkeys_20250101_120000.wav";
       GenerateContent MODEL_PRO PROMPT_TEXT_ASSISTANT uploaded_example;
       DeleteFile "files/abc123"] ∧
  ClipboardCopy "Hello world" ∈ trace w.
Proof.
  cbn zeta. split; [reflexivity |]. split; [reflexivity |]. split; [by vm_compute |].
  vm_compute. apply list_elem_of_In. cbn. tauto.
Qed.

(** ** Recording session: start *)

(** C4. [start_audio_recording] on an idle session returns [True], sets
    [is_recording] and starts the recording thread; on an active session it
    returns [False], logs the "already recording" warning and changes
    nothing. *)
Theorem start_audio_recording_spec (s : state) :
  (is_recording s = false →
     result_of (start_audio_recording s) = true ∧
     is_recording (state_of (start_audio_recording s)) = true ∧
     state_of (start_audio_recording s)
       = set_recording_thread (Some AudioRecordThread) (set_is_recording true s) ∧
     effects_of (start_audio_recording s)
       = [Notification "Recording Started" "Speak now..." LoopingCall2;
          StartThread AudioRecordThread]) ∧
  (is_recording s = true →
     result_of (start_audio_recording s) = false ∧
     state_of (start_audio_recording s) = s ∧
     effects_of (start_audio_recording s)
       = [Log WARNING "Attempted to start recording, but already recording."]).
Proof.
  split; intros Hrec; unfold start_audio_recording; run_m; rewrite Hrec; cbn; auto.
Qed.

Lemma start_audio_recording_spec_witness :
  (result_of (start_audio_recording initial_state) = true ∧
   is_recording (state_of (start_audio_recording initial_state)) = true) ∧
  (let s := set_is_recording true initial_state in
   result_of (start_audio_recording s) = false ∧ state_of (start_audio_recording s) = s).
Proof.
  split.
  - destruct (proj1 (start_audio_recording_spec initial_state) eq_refl) as (H1 & H2 & _).
    exact (conj H1 H2).
  - destruct (proj2 (start_audio_recording_spec (set_is_recording true initial_state))
                eq_refl) as (H1 & H2 & _).
    exact (conj H1 H2).
Defined.

(** ** Settings store *)

(** C8. On the two prompt modes and on the two models each toggle is an
    involution: two toggles in a row give back the state they started
    from. *)
Theorem cycle_twice_identity (s : state) :
  (current_prompt_mode s = PROMPT_MODE_TRANSCRIBE ∨
   current_prompt_mode s = PROMPT_MODE_ASSISTANT →
     state_of (cycle_prompt_mode (state_of (cycle_prompt_mode s))) = s) ∧
  (current_model_name s = MODEL_FLASH ∨ current_model_name s = MODEL_PRO →
     state_of (cycle_ai_model (state_of (cycle_ai_model s))) = s).
Proof.
  destruct s as [sh ct rec fr th ev model mode last]; cbn [current_prompt_mode current_model_name].
  split; intros [-> | ->]; reflexivity.
Qed.

Lemma cycle_twice_identity_witness :
  state_of (cycle_prompt_mode (state_of (cycle_prompt_mode initial_state))) = initial_state ∧
  state_of (cycle_ai_model (state_of (cycle_ai_model initial_state))) = initial_state.
Proof.
  split.
  - apply (proj1 (cycle_twice_identity initial_state)). right. reflexivity.
  - apply (proj2 (cycle_twice_identity initial_state)). right. reflexivity.
Defined.

(** ** Hotkey dispatcher *)

(** A press of the trigger key, in one equation: inside the window nothing
    happens; outside it the press does what [hotkey_action] does, raises
    when it raises, and stamps when it returns [True]. *)
Lemma on_key_press_trigger (t : Q) (env : stop_env) (s : state) :
  on_key_press t env TRIGGER_KEY s =
    if Qltb (t - last_hotkey_time s) DEBOUNCE then (Returns tt, s, [])
    else
      let r := hotkey_action env s in
      (match result_of r with Returns _ => Returns tt | Raises e => Raises e end,
       match result_of r with
       | Returns true => set_last_hotkey_time t (state_of r)
       | _ => state_of r
       end,
       effects_of r).
Proof.
  unfold on_key_press, TRIGGER_KEY.
  repeat (rewrite bool_decide_eq_false_2 by discriminate).
  rewrite bool_decide_eq_true_2 by reflexivity.
  cbn [orb]; run_m.
  destruct (Qltb _ _); [reflexivity |].
  destruct (hotkey_action env s) as [[[[] | e] s'] es]; cbn; by rewrite ?app_nil_r.
Qed.

(** The four cases of [hotkey_action]. *)
Lemma hotkey_action_cases (env : stop_env) (s : state) :
  hotkey_action env s =
    match shift_pressed s, ctrl_pressed s with
    | true, false => lift cycle_prompt_mode s
    | false, true => lift cycle_ai_model s
    | false, false =>
        if is_recording s then stop_audio_recording_and_process env s
        else lift start_audio_recording s
    | true, true => (Returns false, s, [])
    end.
Proof.
  unfold hotkey_action. unfold mbind at 1, E_bind at 1. rewrite lift_run. proj_m.
  change (result_of (get s)) with s. change (state_of (get s)) with s.
  change (effects_of (get s)) with (@nil effect). cbn [app].
  destruct (shift_pressed s), (ctrl_pressed s); cbn [andb negb].
  - reflexivity.
  - by destruct (lift cycle_prompt_mode s) as [[? ?] ?].
  - by destruct (lift cycle_ai_model s) as [[? ?] ?].
  - destruct (is_recording s).
    + by destruct (stop_audio_recording_and_process env s) as [[? ?] ?].
    + by destruct (lift start_audio_recording s) as [[? ?] ?].
Qed.

(** ** Recording session: stop *)

Lemma join_report_cases (env : stop_env) (s : state) :
  join_report env s = [] ∨
  join_report env s = [Log ERROR "Audio recording thread did not finish in time!"].
Proof.
  unfold join_report. destruct (recording_thread s); [| by left].
  destruct (_ && _); auto.
Qed.

Lemma stop_audio_recording_active (env : stop_env) (s : state) :
  is_recording s = true →
  stop_audio_recording_and_process env s
    = (stop_outcome env (audio_frames s), stopped s,
       join_report env s ++ finalize_report env (audio_frames s)).
Proof.
  intros Hrec.
  unfold stop_audio_recording_and_process, join_report, finalize_report, stop_outcome; run_m.
  rewrite Hrec. cbn [negb].
  destruct s as [sh ct rec fr th ev model mode last]; cbn in Hrec |- *; subst rec.
  destruct th as [th |]; [destruct (thread_is_alive env && thread_is_alive_after_join env) |];
    (destruct fr as [| b fr]; [reflexivity |]);
    destruct (write_wav_raises env); reflexivity.
Qed.

Lemma stop_audio_recording_idle (env : stop_env) (s : state) :
  is_recording s = false →
  stop_audio_recording_and_process env s
    = (Returns false, s,
       [Log WARNING "Attempted to stop recording, but not currently recording."]).
Proof.
  intros Hrec. unfold stop_audio_recording_and_process; run_m. by rewrite Hrec.
Qed.

(** C1, as stated, fails when [write_wav] raises: an active session with
    two captured blocks is stopped, and no buffer reaches the submission
    pipeline. *)
Lemma stop_hands_off_counterexample :
  let r := stop_audio_recording_and_process save_failure_env two_block_session in
  is_recording two_block_session = true ∧
  length (audio_frames two_block_session) = 2%nat ∧
  is_recording (state_of r) = false ∧
  spawned (effects_of r) = [] ∧
  handed_off (effects_of r) ≠ [concat (audio_frames two_block_session)].
Proof. vm_compute. repeat split; discriminate. Qed.

(** C1, amended.  A stop of an active session leaves the session idle with
    the frames cleared.  With at least one captured block and a [write_wav]
    that returns, the stop returns [True], exactly one Gemini thread is
    started and the buffer it is handed is the concatenation of the blocks
    in order.  With at least one block and a [write_wav] that raises, the
    save error is logged and no thread is started.  With no block, the
    empty-recording failure is logged, nothing is written and no thread is
    started. *)
Theorem stop_audio_recording_spec (env : stop_env) (s : state) :
  is_recording s = true →
  let r := stop_audio_recording_and_process env s in
  is_recording (state_of r) = false ∧
  audio_frames (state_of r) = [] ∧
  (audio_frames s ≠ [] → write_wav_raises env = None →
     result_of r = Returns true ∧
     spawned (effects_of r) = [recording_path env] ∧
     handed_off (effects_of r) = [concat (audio_frames s)]) ∧
  (audio_frames s ≠ [] → ∀ e, write_wav_raises env = Some e →
     Log ERROR "ERROR during audio saving or processing submission:" ∈ effects_of r ∧
     spawned (effects_of r) = [] ∧
     handed_off (effects_of r) = []) ∧
  (audio_frames s = [] →
     Log ERROR "Recording stopped, but no audio data was captured." ∈ effects_of r ∧
     spawned (effects_of r) = [] ∧
     handed_off (effects_of r) = [] ∧
     wav_writes (effects_of r) = []).
Proof.
  intros Hrec r. subst r. rewrite (stop_audio_recording_active env s Hrec).
  unfold result_of, state_of, effects_of; cbn [fst snd].
  pose proof (join_report_cases env s) as Hjoin.
  split; [reflexivity |]. split; [reflexivity |].
  split; [| split].
  - intros Hne Hw. destruct (audio_frames s) as [| b fr] eqn:Hfr; [done |].
    unfold finalize_report, stop_outcome. rewrite Hw. split; [reflexivity |].
    destruct Hjoin as [-> | ->]; unfold handed_off, written; cbn;
      rewrite decide_True by reflexivity; done.
  - intros Hne e Hw. destruct (audio_frames s) as [| b fr] eqn:Hfr; [done |].
    unfold finalize_report. rewrite Hw.
    split; [apply elem_of_app; right; apply list_elem_of_In; cbn; auto |].
    destruct Hjoin as [-> | ->]; done.
  - intros Hfr. rewrite Hfr. unfold finalize_report.
    split; [apply elem_of_app; right; apply list_elem_of_In; cbn; auto |].
    destruct Hjoin as [-> | ->]; done.
Qed.

Lemma stop_audio_recording_spec_witness :
  let s := two_block_session in
  let s0 := set_is_recording true initial_state in
  let env := StopEnv true false "20250101_120000" None in
  (let r := stop_audio_recording_and_process env s in
   is_recording (state_of r) = false ∧ handed_off (effects_of r) = [[1; 2; 3]%Z]) ∧
  (let r := stop_audio_recording_and_process save_failure_env s in
   is_recording (state_of r) = false ∧ spawned (effects_of r) = []) ∧
  (let r := stop_audio_recording_and_process env s0 in
   is_recording (state_of r) = false ∧ spawned (effects_of r) = [] ∧
   wav_writes (effects_of r) = []).
Proof.
  intros s s0 env. split; [| split].
  - destruct (stop_audio_recording_spec env s eq_refl) as (Hidle & _ & Hsave & _).
    split; [exact Hidle |].
    exact (proj2 (proj2 (Hsave ltac:(discriminate) eq_refl))).
  - destruct (stop_audio_recording_spec save_failure_env s eq_refl)
      as (Hidle & _ & _ & Hfail & _).
    split; [exact Hidle |].
    exact (proj1 (proj2 (Hfail ltac:(discriminate) _ eq_refl))).
  - destruct (stop_audio_recording_spec env s0 eq_refl) as (Hidle & _ & _ & _ & Hempty).
    destruct (Hempty eq_refl) as (_ & Hsp & _ & Hw).
    exact (conj Hidle (conj Hsp Hw)).
Defined.

(** ** Hotkey dispatcher: classification *)

Lemma hotkey_action_last_hotkey_time (env : stop_env) (s : state) :
  last_hotkey_time (state_of (hotkey_action env s)) = last_hotkey_time s.
Proof.
  rewrite hotkey_action_cases.
  destruct (shift_pressed s), (ctrl_pressed s); try reflexivity.
  destruct (is_recording s) eqn:Hrec.
  - by rewrite stop_audio_recording_active.
  - rewrite lift_run. unfold start_audio_recording; run_m. by rewrite Hrec.
Qed.

Lemma start_audio_recording_idle (s : state) :
  is_recording s = false →
  lift start_audio_recording s
    = (Returns true,
       set_recording_thread (Some AudioRecordThread) (set_is_recording true s),
       [Notification "Recording Started" "Speak now..." LoopingCall2;
        StartThread AudioRecordThread]).
Proof. intros Hrec. rewrite lift_run. unfold start_audio_recording; run_m. by rewrite Hrec. Qed.

(** C3. A press of the trigger key outside the debounce window acts by the
    modifier flags as they are at the press: shift without ctrl is
    [cycle_prompt_mode], ctrl without shift is [cycle_ai_model], neither is
    [start_audio_recording] when idle and
    [stop_audio_recording_and_process] when recording, and both together
    change nothing and emit nothing.  A toggle and a start also stamp
    [last_hotkey_time]; a stop stamps it when it returns [True]. *)
Theorem on_key_press_classification (t : Q) (env : stop_env) (s : state) :
  ¬ (t - last_hotkey_time s < DEBOUNCE)%Q →
  let r := on_key_press t env TRIGGER_KEY s in
  (shift_pressed s = true → ctrl_pressed s = false →
     state_of r = set_last_hotkey_time t (state_of (cycle_prompt_mode s)) ∧
     effects_of r = effects_of (cycle_prompt_mode s) ∧
     current_prompt_mode (state_of r)
       = (if String.eqb (current_prompt_mode s) PROMPT_MODE_ASSISTANT
          then PROMPT_MODE_TRANSCRIBE else PROMPT_MODE_ASSISTANT) ∧
     current_model_name (state_of r) = current_model_name s ∧
     is_recording (state_of r) = is_recording s) ∧
  (shift_pressed s = false → ctrl_pressed s = true →
     state_of r = set_last_hotkey_time t (state_of (cycle_ai_model s)) ∧
     effects_of r = effects_of (cycle_ai_model s) ∧
     current_model_name (state_of r)
       = (if String.eqb (current_model_name s) MODEL_PRO then MODEL_FLASH else MODEL_PRO) ∧
     current_prompt_mode (state_of r) = current_prompt_mode s ∧
     is_recording (state_of r) = is_recording s) ∧
  (shift_pressed s = false → ctrl_pressed s = false → is_recording s = false →
     state_of r = set_last_hotkey_time t (state_of (start_audio_recording s)) ∧
     effects_of r = effects_of (start_audio_recording s) ∧
     is_recording (state_of r) = true) ∧
  (shift_pressed s = false → ctrl_pressed s = false → is_recording s = true →
     let stop := stop_audio_recording_and_process env s in
     effects_of r = effects_of stop ∧
     state_of r = match result_of stop with
                  | Returns true => set_last_hotkey_time t (state_of stop)
                  | _ => state_of stop
                  end ∧
     result_of r = match result_of stop with
                   | Returns _ => Returns tt
                   | Raises e => Raises e
                   end ∧
     is_recording (state_of r) = false) ∧
  (shift_pressed s = true → ctrl_pressed s = true →
     state_of r = s ∧ effects_of r = []).
Proof.
  intros Hout r. subst r. rewrite on_key_press_trigger.
  apply Qltb_ge in Hout. rewrite Hout. rewrite hotkey_action_cases. cbn zeta.
  split; [| split; [| split; [| split]]].
  - intros -> ->. repeat split; reflexivity.
  - intros -> ->. repeat split; reflexivity.
  - intros -> -> Hrec. rewrite Hrec, (start_audio_recording_idle s Hrec).
    unfold start_audio_recording; run_m. by rewrite Hrec.
  - intros -> -> Hrec. rewrite Hrec, (stop_audio_recording_active env s Hrec). proj_m.
    split; [reflexivity |]. split; [reflexivity |]. split; [reflexivity |].
    by destruct (stop_outcome env (audio_frames s)) as [[] |].
  - intros -> ->. done.
Qed.

Lemma on_key_press_classification_witness :
  let env := StopEnv true false "20250101_120000" None in
  let press s := state_of (on_key_press 10 env TRIGGER_KEY s) in
  current_prompt_mode (press (set_shift_pressed true initial_state)) = PROMPT_MODE_TRANSCRIBE ∧
  current_model_name (press (set_ctrl_pressed true initial_state)) = MODEL_FLASH ∧
  is_recording (press initial_state) = true ∧
  is_recording (press two_block_session) = false ∧
  press (set_ctrl_pressed true (set_shift_pressed true initial_state))
    = set_ctrl_pressed true (set_shift_pressed true initial_state).
Proof.
  intros env press.
  assert (Hout : ∀ s, last_hotkey_time s = 0%Q → ¬ (10 - last_hotkey_time s < DEBOUNCE)%Q).
  { intros s ->. apply Qltb_ge. reflexivity. }
  split; [| split; [| split; [| split]]].
  - set (s := set_shift_pressed true initial_state).
    pose proof (on_key_press_classification 10 env s (Hout s eq_refl)) as (H & _).
    destruct (H eq_refl eq_refl) as (_ & _ & Hmode & _). exact Hmode.
  - set (s := set_ctrl_pressed true initial_state).
    pose proof (on_key_press_classification 10 env s (Hout s eq_refl)) as (_ & H & _).
    destruct (H eq_refl eq_refl) as (_ & _ & Hmodel & _). exact Hmodel.
  - pose proof (on_key_press_classification 10 env initial_state
                  (Hout initial_state eq_refl)) as (_ & _ & H & _).
    destruct (H eq_refl eq_refl eq_refl) as (_ & _ & Hrec). exact Hrec.
  - pose proof (on_key_press_classification 10 env two_block_session
                  (Hout two_block_session eq_refl)) as (_ & _ & _ & H & _).
    destruct (H eq_refl eq_refl eq_refl) as (_ & _ & _ & Hrec). exact Hrec.
  - set (s := set_ctrl_pressed true (set_shift_pressed true initial_state)).
    pose proof (on_key_press_classification 10 env s (Hout s eq_refl))
      as (_ & _ & _ & _ & H).
    exact (proj1 (H eq_refl eq_refl)).
Defined.

(** ** Hotkey dispatcher: debounce *)

(** C2, as stated, fails: three presses half a second apart with shift
    held, starting from the initial settings.  The first press toggles the
    prompt mode to Transcribe, the second is ignored, and the third comes a
    full second after the accepted first one and is accepted: it toggles the
    mode back. *)
Lemma rapid_succession_counterexample :
  let s := set_shift_pressed true initial_state in
  let burst := [(10, env_ok); (21 # 2, env_ok); (11, env_ok)]%Q in
  rapid_succession 10 [21 # 2; 11]%Q ∧
  current_prompt_mode (state_of (press_all [(10%Q, env_ok)] s)) = PROMPT_MODE_TRANSCRIBE ∧
  result_of (press_all burst s) = Returns tt ∧
  current_prompt_mode (state_of (press_all burst s)) = PROMPT_MODE_ASSISTANT ∧
  last_hotkey_time (state_of (press_all burst s)) = 11%Q ∧
  state_of (press_all burst s) ≠ state_of (press_all [(10%Q, env_ok)] s).
Proof.
  cbn zeta. split; [| split; [| split; [| split; [| split]]]].
  - cbn. repeat split; unfold DEBOUNCE; lra.
  - reflexivity.
  - reflexivity.
  - reflexivity.
  - reflexivity.
  - intros H. apply (f_equal current_prompt_mode) in H. vm_compute in H. discriminate.
Qed.

(** A press inside the debounce window does nothing at all. *)
Lemma on_key_press_debounced (t : Q) (env : stop_env) (s : state) :
  (t - last_hotkey_time s < DEBOUNCE)%Q →
  on_key_press t env TRIGGER_KEY s = (Returns tt, s, []).
Proof.
  intros Hin. rewrite on_key_press_trigger.
  apply Qltb_lt in Hin. by rewrite Hin.
Qed.

Lemma press_all_debounced (ps : list (Q * stop_env)) (s : state) :
  Forall (λ p, (p.1 - last_hotkey_time s < DEBOUNCE)%Q) ps →
  press_all ps s = (Returns tt, s, []).
Proof.
  induction 1 as [| p ps Hp _ IH]; [reflexivity |].
  cbn [press_all foldr]. fold (press_all ps). run_m.
  by rewrite (on_key_press_debounced _ _ _ Hp), IH.
Qed.

(** No action is performed exactly when both modifiers are held. *)
Lemma hotkey_action_none (env : stop_env) (s : state) :
  result_of (hotkey_action env s) = Returns false ↔
  shift_pressed s && ctrl_pressed s = true.
Proof.
  rewrite hotkey_action_cases.
  destruct (shift_pressed s), (ctrl_pressed s); try done.
  destruct (is_recording s) eqn:Hrec.
  - rewrite stop_audio_recording_active by done. proj_m. unfold stop_outcome.
    destruct (audio_frames s); [done |]. by destruct (write_wav_raises env).
  - by rewrite start_audio_recording_idle.
Qed.

(** C2, amended.  The window is counted from the last accepted action, not
    from the previous press.  (1) When the first press of a burst is outside
    the window and performs an action, and every later press comes less
    than the threshold after that first press, the burst does what its first
    press does: same outcome, same state, same effects.  (2) A press less
    than the threshold after the last accepted action changes nothing and
    emits nothing.  (3) A press stamps [last_hotkey_time] exactly when it is
    outside the window and an action was performed; otherwise the stamp
    stays.  (4) No action is performed (the result is [False]) exactly when
    both modifiers are held, and such a press changes nothing. *)
Theorem debounce_spec (t : Q) (env : stop_env) (s : state) :
  (∀ ps : list (Q * stop_env),
     ¬ (t - last_hotkey_time s < DEBOUNCE)%Q →
     result_of (hotkey_action env s) = Returns true →
     Forall (λ p, (p.1 - t < DEBOUNCE)%Q) ps →
     press_all ((t, env) :: ps) s = press_all [(t, env)] s) ∧
  ((t - last_hotkey_time s < DEBOUNCE)%Q →
     on_key_press t env TRIGGER_KEY s = (Returns tt, s, [])) ∧
  last_hotkey_time (state_of (on_key_press t env TRIGGER_KEY s))
    = (if negb (Qltb (t - last_hotkey_time s) DEBOUNCE)
          && performed (result_of (hotkey_action env s))
       then t else last_hotkey_time s) ∧
  (result_of (hotkey_action env s) = Returns false ↔
   shift_pressed s && ctrl_pressed s = true) ∧
  (result_of (hotkey_action env s) = Returns false →
   state_of (on_key_press t env TRIGGER_KEY s) = s ∧
   effects_of (on_key_press t env TRIGGER_KEY s) = []).
Proof.
  split; [| split; [| split; [| split]]].
  - intros ps Hout Hact Hps.
    cbn [press_all foldr]. fold (press_all ps). run_m.
    rewrite on_key_press_trigger. apply Qltb_ge in Hout. rewrite Hout. cbn zeta.
    unfold result_of, state_of, effects_of in *.
    destruct (hotkey_action env s) as [[b s1] e1]; cbn in Hact |- *; subst b.
    by rewrite press_all_debounced.
  - apply on_key_press_debounced.
  - rewrite on_key_press_trigger.
    destruct (Qltb _ _); [reflexivity |]. cbn [negb andb]. cbn zeta. proj_m.
    pose proof (hotkey_action_last_hotkey_time env s) as Hlast.
    destruct (result_of (hotkey_action env s)) as [[] | e];
      [reflexivity | exact Hlast | exact Hlast].
  - apply hotkey_action_none.
  - intros Hnone. pose proof (proj1 (hotkey_action_none env s) Hnone) as Hboth.
    apply andb_true_iff in Hboth as [Hsh Hct].
    rewrite on_key_press_trigger, hotkey_action_cases, Hsh, Hct.
    by destruct (Qltb _ _).
Qed.

Lemma debounce_spec_witness :
  press_all [(10, env_ok); (101 # 10, env_ok); (105 # 10, env_ok)]%Q initial_state
    = press_all [(10%Q, env_ok)] initial_state ∧
  on_key_press (3 # 10) env_ok TRIGGER_KEY initial_state = (Returns tt, initial_state, []) ∧
  (let s := set_ctrl_pressed true (set_shift_pressed true initial_state) in
   state_of (on_key_press 10 env_ok TRIGGER_KEY s) = s).
Proof.
  destruct (debounce_spec 10 env_ok initial_state) as (Hburst & _).
  destruct (debounce_spec (3 # 10) env_ok initial_state) as (_ & Hign & _).
  destruct (debounce_spec 10 env_ok
              (set_ctrl_pressed true (set_shift_pressed true initial_state)))
    as (_ & _ & _ & _ & Hnone).
  split; [| split].
  - apply Hburst.
    + apply Qltb_ge. reflexivity.
    + reflexivity.
    + repeat constructor.
  - apply Hign. reflexivity.
  - exact (proj1 (Hnone eq_refl)).
Defined.

(** C10 does not hold of the script.  A press of the trigger key alone,
    outside the window, on a session that is recording and has captured no
    block: the stop logs the empty recording and then raises
    [AttributeError] at [sound=audio.Caution] (line 205) before it gets to
    [return action_was_taken].  So the stop does not return [True], the
    press is not stamped and no notification is shown; the session is idle,
    and a next call of [on_key_press] for the trigger key, however soon
    after this one, is not ignored: it starts a recording. *)
Theorem empty_stop_raises (t : Q) (env : stop_env) (s : state) :
  is_recording s = true →
  audio_frames s = [] →
  shift_pressed s = false →
  ctrl_pressed s = false →
  ¬ (t - last_hotkey_time s < DEBOUNCE)%Q →
  let r := on_key_press t env TRIGGER_KEY s in
  result_of (stop_audio_recording_and_process env s) = Raises AttributeError_Caution ∧
  result_of r = Raises AttributeError_Caution ∧
  last_hotkey_time (state_of r) = last_hotkey_time s ∧
  is_recording (state_of r) = false ∧
  Log ERROR "Recording stopped, but no audio data was captured." ∈ effects_of r ∧
  notifications (effects_of r) = [] ∧
  spawned (effects_of r) = [] ∧
  (∀ t' env', ¬ (t' - last_hotkey_time s < DEBOUNCE)%Q →
     is_recording (state_of (on_key_press t' env' TRIGGER_KEY (state_of r))) = true ∧
     last_hotkey_time (state_of (on_key_press t' env' TRIGGER_KEY (state_of r))) = t').
Proof.
  intros Hrec Hfr Hsh Hct Hout r.
  assert (Hr : r = (Raises AttributeError_Caution, stopped s,
                    join_report env s ++ finalize_report env [])).
  { subst r. rewrite on_key_press_trigger.
    apply Qltb_ge in Hout. rewrite Hout.
    rewrite hotkey_action_cases, Hsh, Hct, Hrec.
    by rewrite (stop_audio_recording_active env s Hrec), Hfr. }
  rewrite (stop_audio_recording_active env s Hrec), Hr, Hfr.
  unfold result_of, state_of, effects_of; cbn [fst snd finalize_report stop_outcome].
  pose proof (join_report_cases env s) as Hjoin.
  split; [reflexivity |]. split; [reflexivity |]. split; [reflexivity |].
  split; [reflexivity |].
  split; [apply elem_of_app; right; apply list_elem_of_In; cbn; auto |].
  split; [by destruct Hjoin as [-> | ->] |].
  split; [by destruct Hjoin as [-> | ->] |].
  intros t' env' Hout'. apply Qltb_ge in Hout'.
  rewrite on_key_press_trigger.
  change (last_hotkey_time (stopped s)) with (last_hotkey_time s). rewrite Hout'.
  rewrite hotkey_action_cases.
  change (shift_pressed (stopped s)) with (shift_pressed s).
  change (ctrl_pressed (stopped s)) with (ctrl_pressed s).
  rewrite Hsh, Hct. change (is_recording (stopped s)) with false. cbn iota.
  by rewrite start_audio_recording_idle.
Qed.

Lemma empty_stop_raises_witness :
  let r := on_key_press 10 env_ok TRIGGER_KEY empty_session in
  result_of r = Raises AttributeError_Caution ∧
  last_hotkey_time (state_of r) = 0%Q ∧
  is_recording (state_of (on_key_press (21 # 2) env_ok TRIGGER_KEY (state_of r))) = true.
Proof.
  intros r.
  assert (Hout : ∀ t : Q, Qltb (t - 0) DEBOUNCE = false →
            ¬ (t - last_hotkey_time empty_session < DEBOUNCE)%Q).
  { intros t Ht. by apply Qltb_ge. }
  destruct (empty_stop_raises 10 env_ok empty_session eq_refl eq_refl eq_refl eq_refl
              (Hout 10%Q eq_refl)) as (_ & Hres & Hlast & _ & _ & _ & _ & Hnext).
  split; [exact Hres |]. split; [exact Hlast |].
  exact (proj1 (Hnext (21 # 2)%Q env_ok (Hout (21 # 2)%Q eq_refl))).
Defined.

(** ** Submission pipeline *)

Lemma log_ratings_run (rs : list safety_rating) (s : state) :
  foldr (λ rating k,
           emit (Log WARNING ("  - Safety Rating: Category=" +:+ category_name rating
                              +:+ ", Probability=" +:+ probability_name rating));; k)
        (mret tt) rs s
  = (tt, s, map rating_log rs).
Proof.
  induction rs as [| r rs IH]; [reflexivity |].
  cbn [foldr map]. run_m. by rewrite IH.
Qed.

(** [report_empty_response] logs and then raises at [audio.Caution]. *)
Lemma report_empty_response_run (response : response_t) (s : state) :
  report_empty_response response s
    = (Raises AttributeError_Caution, s, empty_response_logs response).
Proof.
  unfold report_empty_response, empty_response_logs.
  destruct (prompt_feedback response) as [fb |]; [| reflexivity].
  destruct (truthy (block_reason fb)); [| reflexivity].
  run_m. rewrite log_ratings_run. cbn. by rewrite app_nil_r.
Qed.

Lemma gemini_finally_run (env : gemini_env) (up : option uploaded_file) (s : state) :
  gemini_finally env up s = (tt, s, cleanup_effects env up).
Proof.
  unfold gemini_finally, cleanup_effects. destruct up as [f |]; [| reflexivity].
  run_m. by destruct (delete_file_raises env).
Qed.

(** Every [except] clause logs its record and then raises at
    [audio.Caution]. *)
Lemma gemini_except_run (e : exception) (s : state) :
  gemini_except e s = (Raises AttributeError_Caution, s, [except_log e s]).
Proof. unfold gemini_except, except_log; run_m. by destruct (exc_class e). Qed.

Lemma gemini_generate_state (env : gemini_env) (f : uploaded_file) (s : state) :
  state_of (gemini_generate env f s) = s.
Proof.
  unfold gemini_generate; run_m.
  destruct (generate_content env) as [response |]; [| reflexivity].
  destruct (parts response) as [[| part ps] |]; [| | reflexivity].
  - by rewrite report_empty_response_run.
  - destruct (text response); [| reflexivity].
    by destruct (pyperclip_copy_raises env).
Qed.

Lemma gemini_try_state (env : gemini_env) (p : path) (s : state) :
  state_of (gemini_try env p s) = s.
Proof.
  unfold gemini_try. pose proof (gemini_generate_state env) as Hgen. revert Hgen. run_m.
  intros Hgen. destruct (upload_file env) as [f |]; [| reflexivity].
  specialize (Hgen f s). by destruct (gemini_generate env f s) as [[? ?] ?].
Qed.

(** The handle the [finally] clause sees is the one [upload_file] returned. *)
Lemma gemini_try_uploaded (env : gemini_env) (p : path) (s : state) :
  (result_of (gemini_try env p s)).1
    = match upload_file env with Returns f => Some f | Raises _ => None end.
Proof.
  unfold gemini_try; run_m.
  destruct (upload_file env) as [f |]; [| reflexivity].
  by destruct (gemini_generate env f s) as [[? ?] ?].
Qed.

(** [submit_audio_to_gemini] as the three stages of its [try] statement:
    it returns when the body is left without an exception, and raises the
    [AttributeError] of the [except] clause otherwise; the [finally] clause
    runs in both cases. *)
Lemma submit_audio_to_gemini_run (env : gemini_env) (p : path) (s : state) :
  submit_audio_to_gemini env p s =
    (match (result_of (gemini_try env p s)).2 with
     | Some e => Raises AttributeError_Caution
     | None => Returns tt
     end,
     s,
     effects_of (gemini_try env p s)
       ++ match (result_of (gemini_try env p s)).2 with
          | Some e => [except_log e s]
          | None => []
          end
       ++ cleanup_effects env (result_of (gemini_try env p s)).1).
Proof.
  unfold submit_audio_to_gemini.
  unfold mbind at 1, E_bind at 1. rewrite lift_run.
  rewrite (gemini_try_state env p s). proj_m.
  destruct (result_of (gemini_try env p s)) as [up exn]. cbn [fst snd].
  unfold try_finally.
  destruct exn as [e |].
  - rewrite gemini_except_run. cbn iota beta. by rewrite gemini_finally_run.
  - change (@mret E _ _ tt s) with (@Returns unit tt, s, @nil effect).
    cbn iota beta. by rewrite gemini_finally_run.
Qed.

Lemma notifications_app (es1 es2 : list effect) :
  notifications (es1 ++ es2) = notifications es1 ++ notifications es2.
Proof. apply omap_app. Qed.

Lemma notifications_rating_log (rs : list safety_rating) :
  notifications (map rating_log rs) = [].
Proof. induction rs as [| r rs IH]; [reflexivity | exact IH]. Qed.

Lemma notifications_cleanup (env : gemini_env) (up : option uploaded_file) :
  notifications (cleanup_effects env up) = [].
Proof. destruct up; [| reflexivity]. cbn. by destruct (delete_file_raises env). Qed.

Lemma notifications_empty_response (response : response_t) :
  notifications (empty_response_logs response) = [].
Proof.
  unfold empty_response_logs.
  destruct (prompt_feedback response) as [fb |]; [| reflexivity].
  destruct (truthy (block_reason fb)); [| reflexivity].
  apply notifications_rating_log.
Qed.

Lemma gemini_try_empty (env : gemini_env) (p : path) (s : state)
    (f : uploaded_file) (response : response_t) :
  upload_file env = Returns f →
  generate_content env = Returns response →
  parts response = Returns [] →
  gemini_try env p s =
    (Some f, Some AttributeError_Caution, s,
     request_effects s p f ++ empty_response_logs response).
Proof.
  intros Hup Hgen Hparts. unfold gemini_try, gemini_generate; run_m.
  rewrite Hup, Hgen, Hparts, report_empty_response_run. by rewrite app_nil_r.
Qed.

(** C6 does not hold of the script.  A submission whose upload and
    generation return and whose response has no parts logs the kind of the
    empty response (the blocked request with the name of its reason and
    every safety rating, or the plain empty response) and then raises
    [AttributeError] at [sound=audio.Caution] (line 262 or 265).  The
    exception is caught as an unknown error at line 292, logged, and raised
    again at line 294: the uploaded file is deleted, no notification is
    shown, neither the blocked-content one nor the empty-response one, and
    the call is left by the exception. *)
Theorem empty_response_raises (env : gemini_env) (p : path) (s : state)
    (f : uploaded_file) (response : response_t) :
  upload_file env = Returns f →
  generate_content env = Returns response →
  parts response = Returns [] →
  let r := submit_audio_to_gemini env p s in
  r = (Raises AttributeError_Caution, s,
       request_effects s p f ++ empty_response_logs response
         ++ [Log ERROR "UNKNOWN ERROR during Gemini interaction:"]
         ++ cleanup_effects env (Some f)) ∧
  notifications (effects_of r) = [] ∧
  (∀ fb, prompt_feedback response = Some fb → br_value (block_reason fb) ≠ 0%Z →
     empty_response_logs response
       = Log ERROR ("Gemini API ERROR: Request blocked by safety filter (Reason: "
                    +:+ br_name (block_reason fb) +:+ ")")
           :: map rating_log (safety_ratings fb)) ∧
  (prompt_feedback response = None ∨
   (∃ fb, prompt_feedback response = Some fb ∧ br_value (block_reason fb) = 0%Z) →
     empty_response_logs response
       = [Log ERROR "Gemini API ERROR: Response is empty (no parts and no specific block reason)."]).
Proof.
  intros Hup Hgen Hparts r. subst r.
  rewrite submit_audio_to_gemini_run, (gemini_try_empty env p s f response Hup Hgen Hparts).
  proj_m. cbn [fst snd].
  split; [by rewrite <- !app_assoc |]. split; [| split].
  - rewrite !notifications_app, notifications_empty_response, notifications_cleanup.
    reflexivity.
  - intros fb Hfb Hreason. unfold empty_response_logs. rewrite Hfb.
    assert (Ht : truthy (block_reason fb) = true).
    { unfold truthy. apply negb_true_iff, Z.eqb_neq, Hreason. }
    by rewrite Ht.
  - intros [Hnone | (fb & Hfb & Hz)]; unfold empty_response_logs.
    + by rewrite Hnone.
    + rewrite Hfb. unfold truthy. by rewrite Hz.
Qed.

Lemma empty_response_raises_witness :
  let p := Path AUDIO_DIRECTORY_PATH "rec_fkeys_20250101_120000.wav" in
  let env := GeminiEnv (Returns uploaded_example) (Returns blocked_response) None None in
  let r := submit_audio_to_gemini env p initial_state in
  result_of r = Raises AttributeError_Caution ∧
  notifications (effects_of r) = [] ∧
  logs (effects_of r) =
    [(ERROR, "Gemini API ERROR: Request blocked by safety filter (Reason: SAFETY)");
     (WARNING, "  - Safety Rating: Category=HARM_CATEGORY_HARASSMENT, Probability=HIGH");
     (ERROR, "UNKNOWN ERROR during Gemini interaction:")].
Proof.
  intros p env r.
  destruct (empty_response_raises env p initial_state uploaded_example blocked_response
              eq_refl eq_refl eq_refl) as (Hr & Hnot & _).
  split; [| split; [exact Hnot |]].
  - exact (f_equal result_of Hr).
  - subst r. rewrite Hr. reflexivity.
Defined.

(** The accessor [response.parts] itself raises for a response without a
    candidate, as the library answers a blocked prompt: the exception goes
    to the last [except] clause, so the log says "UNKNOWN ERROR" and nothing
    of the block, and again no notification is shown. *)
Lemma parts_accessor_raises (env : gemini_env) (p : path) (s : state)
    (f : uploaded_file) (response : response_t) (e : exception) :
  upload_file env = Returns f →
  generate_content env = Returns response →
  parts response = Raises e →
  submit_audio_to_gemini env p s
    = (Raises AttributeError_Caution, s,
       request_effects s p f ++ [except_log e s] ++ cleanup_effects env (Some f)).
Proof.
  intros Hup Hgen Hparts. rewrite submit_audio_to_gemini_run.
  unfold gemini_try, gemini_generate; run_m. by rewrite Hup, Hgen, Hparts.
Qed.

Lemma deletions_app (es1 es2 : list effect) :
  deletions (es1 ++ es2) = deletions es1 ++ deletions es2.
Proof. apply omap_app. Qed.

Lemma generation_requests_app (es1 es2 : list effect) :
  generation_requests (es1 ++ es2) = generation_requests es1 ++ generation_requests es2.
Proof. apply omap_app. Qed.

Lemma deletions_reporting (es : list effect) :
  forallb reporting es = true → deletions es = [].
Proof.
  induction es as [| e es IH]; [reflexivity |].
  cbn [forallb]. intros [He Hes]%andb_true_iff.
  destruct e; try discriminate He; exact (IH Hes).
Qed.

Lemma generation_requests_reporting (es : list effect) :
  forallb reporting es = true → generation_requests es = [].
Proof.
  induction es as [| e es IH]; [reflexivity |].
  cbn [forallb]. intros [He Hes]%andb_true_iff.
  destruct e; try discriminate He; exact (IH Hes).
Qed.

Lemma reporting_rating_log (rs : list safety_rating) :
  forallb reporting (map rating_log rs) = true.
Proof. induction rs as [| r rs IH]; [reflexivity | exact IH]. Qed.

Lemma reporting_empty_response (response : response_t) :
  forallb reporting (empty_response_logs response) = true.
Proof.
  unfold empty_response_logs.
  destruct (prompt_feedback response) as [fb |]; [| reflexivity].
  destruct (truthy (block_reason fb)); [| reflexivity].
  apply reporting_rating_log.
Qed.

(** The [try] body uploads, then, if the upload returned, asks for the
    generation with the settings of the state it runs in; everything after
    that only reports. *)
Lemma gemini_try_effects (env : gemini_env) (p : path) (s : state) :
  ∃ rest, forallb reporting rest = true ∧
    effects_of (gemini_try env p s) =
      UploadFile p (name p) ::
      match upload_file env with
      | Returns f =>
          GenerateContent (current_model_name s) (prompts_get (current_prompt_mode s)) f
            :: rest
      | Raises _ => []
      end.
Proof.
  unfold gemini_try, gemini_generate; run_m.
  destruct (upload_file env) as [f | e]; [| by exists []].
  destruct (generate_content env) as [response | e]; [| by exists []].
  destruct (parts response) as [[| part ps] | e]; [| | by exists []].
  - rewrite report_empty_response_run. cbn.
    eexists; split; [| by rewrite app_nil_r]. apply reporting_empty_response.
  - destruct (text response) as [t | e]; [| by exists []].
    destruct (pyperclip_copy_raises env); eexists; (split; [| reflexivity]); reflexivity.
Qed.

Lemma gemini_try_except_reporting (env : gemini_env) (p : path) (s : state) :
  forallb reporting
    match (result_of (gemini_try env p s)).2 with
    | Some e => [except_log e s]
    | None => []
    end = true.
Proof. by destruct (result_of (gemini_try env p s)).2. Qed.

(** C7, as stated, fails for a submission whose upload raises: the [finally]
    clause finds no uploaded file and attempts no deletion. *)
Lemma cleanup_counterexample :
  let p := Path AUDIO_DIRECTORY_PATH "rec_fkeys_20250101_120000.wav" in
  let es := effects_of (submit_audio_to_gemini upload_failure_env p initial_state) in
  uploads es = [p] ∧
  length (deletions es) = 0%nat ∧
  length (deletions es) ≠ 1%nat.
Proof. vm_compute. split; [reflexivity | split; [reflexivity | discriminate]]. Qed.

(** C7, amended.  A submission whose upload returned a file attempts the
    deletion of that file exactly once, whether the rest of the [try] body
    is left normally or by an exception; a submission whose upload raised
    attempts none.  The submission leaves the globals as they are.  When
    the deletion raises, the only trace of it is one more ERROR log record
    at the end: the outcome of the call and everything else it emits are
    those of the same submission with a deletion that succeeds. *)
Theorem cleanup_spec (env : gemini_env) (p : path) (s : state) :
  deletions (effects_of (submit_audio_to_gemini env p s))
    = match upload_file env with
      | Returns f => [file_name f]
      | Raises _ => []
      end ∧
  state_of (submit_audio_to_gemini env p s) = s ∧
  (∀ up gen clip e_del,
     let failed := submit_audio_to_gemini (GeminiEnv up gen clip (Some e_del)) p s in
     let clean := submit_audio_to_gemini (GeminiEnv up gen clip None) p s in
     failed = (result_of clean, s,
               effects_of clean ++
               match up with
               | Returns f =>
                   [Log ERROR ("Failed to delete uploaded file '" +:+ file_name f
                               +:+ "': " +:+ e_del)]
               | Raises _ => []
               end)).
Proof.
  split; [| split].
  - rewrite submit_audio_to_gemini_run. proj_m.
    rewrite !deletions_app.
    rewrite (deletions_reporting _ (gemini_try_except_reporting env p s)).
    destruct (gemini_try_effects env p s) as (rest & Hrest & ->).
    rewrite gemini_try_uploaded.
    destruct (upload_file env) as [f | e]; [| reflexivity].
    change (deletions (UploadFile p (name p) :: GenerateContent _ _ f :: rest))
      with (deletions rest).
    rewrite (deletions_reporting _ Hrest). cbn.
    by destruct (delete_file_raises env).
  - by rewrite submit_audio_to_gemini_run.
  - intros up gen clip e_del failed clean. subst failed clean.
    rewrite !submit_audio_to_gemini_run.
    rewrite !gemini_try_uploaded. cbn [upload_file].
    change (gemini_try (GeminiEnv up gen clip (Some e_del)) p s)
      with (gemini_try (GeminiEnv up gen clip None) p s).
    proj_m.
    destruct up as [f | e]; cbn [cleanup_effects delete_file_raises].
    + f_equal. rewrite <- !app_assoc. do 2 f_equal.
    + by rewrite !app_nil_r.
Qed.

Lemma cleanup_spec_witness :
  let p := Path AUDIO_DIRECTORY_PATH "rec_fkeys_20250101_120000.wav" in
  let quota := Raises (Exception_ ResourceExhausted "429 Quota exceeded") in
  deletions (effects_of (submit_audio_to_gemini
     (GeminiEnv (Returns uploaded_example) quota None (Some "404 File not found"))
     p initial_state)) = ["files/abc123"] ∧
  deletions (effects_of (submit_audio_to_gemini upload_failure_env p initial_state)) = [].
Proof.
  intros p quota. split.
  - exact (proj1 (cleanup_spec
                    (GeminiEnv (Returns uploaded_example) quota None
                               (Some "404 File not found")) p initial_state)).
  - exact (proj1 (cleanup_spec upload_failure_env p initial_state)).
Defined.

(** ** Settings seen by a submission *)

Lemma generation_requests_submit (env : gemini_env) (p : path) (s : state) :
  generation_requests (effects_of (submit_audio_to_gemini env p s))
    = match upload_file env with
      | Returns _ => [(current_model_name s, prompts_get (current_prompt_mode s))]
      | Raises _ => []
      end.
Proof.
  rewrite submit_audio_to_gemini_run. proj_m.
  rewrite !generation_requests_app.
  rewrite (generation_requests_reporting _ (gemini_try_except_reporting env p s)).
  destruct (gemini_try_effects env p s) as (rest & Hrest & ->).
  rewrite gemini_try_uploaded.
  destruct (upload_file env) as [f | e]; [| reflexivity].
  change (generation_requests (UploadFile p (name p) :: GenerateContent ?m ?q f :: rest))
    with ((m, q) :: generation_requests rest).
  rewrite (generation_requests_reporting _ Hrest). cbn.
  by destruct (delete_file_raises env).
Qed.

Lemma trace_step (w : system) (ev : event) : ∃ more, trace (step w ev) = trace w ++ more.
Proof.
  destruct ev; cbn [step]; unfold run_handler; cbn [trace]; eauto.
  destruct (gemini_threads w !! i); cbn [trace]; eauto.
  exists []. by rewrite app_nil_r.
Qed.

Lemma trace_run (evs : list event) (w : system) :
  ∃ more, trace (run evs w) = trace w ++ more.
Proof.
  revert w. induction evs as [| ev evs IH]; intros w.
  - exists []. by rewrite app_nil_r.
  - cbn [run foldl]. destruct (IH (step w ev)) as (more2 & Hrun).
    destruct (trace_step w ev) as (more1 & Hstep).
    exists (more1 ++ more2). unfold run in Hrun. by rewrite Hrun, Hstep, app_assoc.
Qed.

(** C5, as stated, fails: a recording is stopped while the settings are
    (PRO, Assistant); both settings are toggled before the Gemini thread
    started by the stop gets to run; the generation request is then made
    with (FLASH, Transcribe). *)
Lemma stop_time_snapshot_counterexample :
  let at_stop := run session_events initial_system in
  let at_end := run (toggle_events ++ [GeminiRun 0 gemini_ok]) at_stop in
  gemini_threads at_stop = [Path AUDIO_DIRECTORY_PATH "rec_fkeys_20250101_120000.wav"] ∧
  current_model_name (globals at_stop) = MODEL_PRO ∧
  current_prompt_mode (globals at_stop) = PROMPT_MODE_ASSISTANT ∧
  generation_requests (trace at_stop) = [] ∧
  generation_requests (trace at_end) = [(MODEL_FLASH, PROMPT_TEXT_TRANSCRIBE)] ∧
  generation_requests (trace at_end)
    ≠ [(current_model_name (globals at_stop),
        prompts_get (current_prompt_mode (globals at_stop)))].
Proof.
  cbn zeta. split; [| split; [| split; [| split; [| split]]]]; try (vm_compute; reflexivity).
  vm_compute. discriminate.
Qed.

(** C5, amended.  [submit_audio_to_gemini] is given the file path only and
    reads the two globals itself: the model and the prompt of its generation
    request are those of the state in which the Gemini thread runs, whatever
    they were when the recording was stopped.  When that thread runs in the
    system, its request is added to the trace with the settings of that
    moment and the globals stay as they are; and no later event changes what
    is already in the trace. *)
Theorem submission_reads_current_settings (w : system) (i : nat) (env : gemini_env) :
  (∀ p s,
     generation_requests (effects_of (submit_audio_to_gemini env p s))
       = match upload_file env with
         | Returns _ => [(current_model_name s, prompts_get (current_prompt_mode s))]
         | Raises _ => []
         end) ∧
  (∀ p, gemini_threads w !! i = Some p →
     generation_requests (trace (step w (GeminiRun i env)))
       = generation_requests (trace w) ++
         match upload_file env with
         | Returns _ =>
             [(current_model_name (globals w), prompts_get (current_prompt_mode (globals w)))]
         | Raises _ => []
         end ∧
     globals (step w (GeminiRun i env)) = globals w) ∧
  (∀ evs, ∃ more, trace (run evs w) = trace w ++ more).
Proof.
  split; [| split].
  - intros p s. apply generation_requests_submit.
  - intros p Hp. cbn [step]. rewrite Hp. unfold run_handler. cbn [trace globals].
    rewrite generation_requests_app, generation_requests_submit.
    split; [reflexivity |]. by rewrite submit_audio_to_gemini_run.
  - intros evs. apply trace_run.
Qed.

Lemma submission_reads_current_settings_witness :
  let at_stop := run session_events initial_system in
  let toggled := run toggle_events at_stop in
  generation_requests (trace (step toggled (GeminiRun 0 gemini_ok)))
    = generation_requests (trace toggled) ++ [(MODEL_FLASH, PROMPT_TEXT_TRANSCRIBE)].
Proof.
  intros at_stop toggled.
  destruct (submission_reads_current_settings toggled 0 gemini_ok) as (_ & Hrun & _).
  exact (proj1 (Hrun (Path AUDIO_DIRECTORY_PATH "rec_fkeys_20250101_120000.wav") eq_refl)).
Defined.

(** ** The settings invariant *)

(** A handler that leaves the two settings alone keeps the invariant. *)
Lemma settings_ok_same (s s' : state) :
  current_prompt_mode s' = current_prompt_mode s →
  current_model_name s' = current_model_name s →
  settings_ok s → settings_ok s'.
Proof. unfold settings_ok. by intros -> ->. Qed.

Lemma on_key_press_cases (t : Q) (env : stop_env) (k : key) (s : state) :
  on_key_press t env k s =
    match k with
    | Key_shift | Key_shift_r => (Returns tt, set_shift_pressed true s, [])
    | Key_ctrl_l | Key_ctrl_r => (Returns tt, set_ctrl_pressed true s, [])
    | Key_f9 => on_key_press t env TRIGGER_KEY s
    | Key_other _ => (Returns tt, s, [])
    end.
Proof. by destruct k. Qed.

Lemma on_key_release_cases (k : key) (s : state) :
  on_key_release k s =
    match k with
    | Key_shift | Key_shift_r => (tt, set_shift_pressed false s, [])
    | Key_ctrl_l | Key_ctrl_r => (tt, set_ctrl_pressed false s, [])
    | Key_f9 | Key_other _ => (tt, s, [])
    end.
Proof. by destruct k. Qed.

Lemma cycle_prompt_mode_settings_ok (s : state) :
  settings_ok s → settings_ok (state_of (cycle_prompt_mode s)).
Proof.
  intros [_ Hmodel]. split; [| exact Hmodel].
  unfold cycle_prompt_mode; run_m. cbn [current_prompt_mode set_current_prompt_mode].
  destruct (String.eqb _ _); auto.
Qed.

Lemma cycle_ai_model_settings_ok (s : state) :
  settings_ok s → settings_ok (state_of (cycle_ai_model s)).
Proof.
  intros [Hmode _]. split; [exact Hmode |].
  unfold cycle_ai_model; run_m. cbn [current_model_name set_current_model_name].
  destruct (String.eqb _ _); auto.
Qed.

Lemma hotkey_action_settings_ok (env : stop_env) (s : state) :
  settings_ok s → settings_ok (state_of (hotkey_action env s)).
Proof.
  intros Hok. rewrite hotkey_action_cases.
  destruct (shift_pressed s), (ctrl_pressed s).
  - exact Hok.
  - rewrite lift_run. by apply cycle_prompt_mode_settings_ok.
  - rewrite lift_run. by apply cycle_ai_model_settings_ok.
  - destruct (is_recording s) eqn:Hrec.
    + rewrite stop_audio_recording_active by done. exact Hok.
    + rewrite start_audio_recording_idle by done. exact Hok.
Qed.

Lemma on_key_press_settings_ok (t : Q) (env : stop_env) (k : key) (s : state) :
  settings_ok s → settings_ok (state_of (on_key_press t env k s)).
Proof.
  intros Hok. rewrite on_key_press_cases.
  destruct k; try exact Hok.
  rewrite on_key_press_trigger.
  destruct (Qltb _ _); [exact Hok |]. cbn zeta. proj_m.
  pose proof (hotkey_action_settings_ok env s Hok) as Hact.
  by destruct (result_of (hotkey_action env s)) as [[] |].
Qed.

Lemma step_settings_ok (w : system) (ev : event) :
  settings_ok (globals w) → settings_ok (globals (step w ev)).
Proof.
  intros Hok. destruct ev; cbn [step]; unfold run_handler; cbn [globals].
  - by apply on_key_press_settings_ok.
  - rewrite on_key_release_cases. by destruct k.
  - exact Hok.
  - unfold audio_recording_worker_append; run_m.
    by destruct (recording_stop_event (globals w)).
  - exact Hok.
  - destruct (gemini_threads w !! i); [| exact Hok].
    cbn [globals]. by rewrite submit_audio_to_gemini_run.
Qed.

Lemma run_settings_ok (evs : list event) (w : system) :
  settings_ok (globals w) → settings_ok (globals (run evs w)).
Proof.
  revert w. induction evs as [| ev evs IH]; intros w Hok; [exact Hok |].
  cbn [run foldl]. apply IH. by apply step_settings_ok.
Qed.

(** C9. The two settings start in their two-valued domains, every event of
    the running program keeps them there, so they are there in every
    reachable state; and there the lookup in [PROMPTS] finds the mode, so
    [PROMPTS.get] never falls back on its default. *)
Theorem settings_invariant :
  settings_ok initial_state ∧
  (∀ w ev, settings_ok (globals w) → settings_ok (globals (step w ev))) ∧
  (∀ w, reachable w → settings_ok (globals w)) ∧
  (∀ w, reachable w →
     ∃ prompt, PROMPTS !! current_prompt_mode (globals w) = Some prompt ∧
               prompts_get (current_prompt_mode (globals w)) = prompt).
Proof.
  assert (Hinit : settings_ok initial_state) by (split; right; reflexivity).
  assert (Hreach : ∀ w, reachable w → settings_ok (globals w)).
  { intros w (evs & ->). by apply run_settings_ok. }
  split; [exact Hinit |]. split; [exact step_settings_ok |]. split; [exact Hreach |].
  intros w Hw. destruct (Hreach w Hw) as [[-> | ->] _].
  - exists PROMPT_TEXT_TRANSCRIBE. by vm_compute.
  - exists PROMPT_TEXT_ASSISTANT. by vm_compute.
Qed.

Lemma settings_invariant_witness :
  let w := run (session_events ++ toggle_events) initial_system in
  settings_ok (globals w) ∧
  settings_ok (globals (step w (KeyPress 20 env_ok Key_f9))) ∧
  ∃ prompt, PROMPTS !! current_prompt_mode (globals w) = Some prompt ∧
            prompts_get (current_prompt_mode (globals w)) = prompt.
Proof.
  intros w.
  destruct settings_invariant as (_ & Hstep & Hreach & Hget).
  assert (Hw : reachable w) by (by exists (session_events ++ toggle_events)).
  split; [exact (Hreach w Hw) |].
  split; [exact (Hstep w _ (Hreach w Hw)) |].
  exact (Hget w Hw).
Defined.


(** * Further properties of the handlers *)

(** ** Recording session *)

(** X1. Whatever the session was doing, after a call of
    [stop_audio_recording_and_process] it is idle, and a second call is
    rejected: it returns [False], logs the "not currently recording" warning
    and leaves the globals as the first call left them. *)
Theorem stop_twice_rejected (env1 env2 : stop_env) (s : state) :
  let s1 := state_of (stop_audio_recording_and_process env1 s) in
  is_recording s1 = false ∧
  stop_audio_recording_and_process env2 s1
    = (Returns false, s1,
       [Log WARNING "Attempted to stop recording, but not currently recording."]).
Proof.
  intros s1.
  assert (Hidle : is_recording s1 = false).
  { subst s1. destruct (is_recording s) eqn:Hrec.
    - by rewrite stop_audio_recording_active.
    - by rewrite stop_audio_recording_idle. }
  split; [exact Hidle |]. by apply stop_audio_recording_idle.
Qed.

(** ** Settings store *)

(** X2. [PROMPTS.get] with its default is total on mode names: the
    Transcribe mode gets the transcription prompt and every other name,
    known or not, gets the Assistant prompt. *)
Theorem prompts_get_total (mode : string) :
  prompts_get mode =
    if String.eqb mode PROMPT_MODE_TRANSCRIBE then PROMPT_TEXT_TRANSCRIBE
    else PROMPT_TEXT_ASSISTANT.
Proof.
  unfold prompts_get, PROMPTS.
  destruct (String.eqb_spec mode PROMPT_MODE_TRANSCRIBE) as [-> | Hne].
  - by rewrite lookup_insert_eq.
  - rewrite lookup_insert_ne by done.
    destruct (decide (mode = PROMPT_MODE_ASSISTANT)) as [-> | Hne'].
    + by rewrite lookup_insert_eq.
    + rewrite lookup_insert_ne, lookup_empty by done. by vm_compute.
Qed.

(** X3. A toggle repairs a setting that is outside its domain: after
    [cycle_prompt_mode] the mode is Transcribe when it was Assistant and
    Assistant for every other value, after [cycle_ai_model] the model is
    FLASH when it was PRO and PRO for every other value; so from any state
    one toggle followed by two more is the same as the one toggle. *)
Theorem cycle_lands_in_domain (s : state) :
  (current_prompt_mode (state_of (cycle_prompt_mode s)) = PROMPT_MODE_TRANSCRIBE ∧
     current_prompt_mode s = PROMPT_MODE_ASSISTANT ∨
   current_prompt_mode (state_of (cycle_prompt_mode s)) = PROMPT_MODE_ASSISTANT ∧
     current_prompt_mode s ≠ PROMPT_MODE_ASSISTANT) ∧
  (current_model_name (state_of (cycle_ai_model s)) = MODEL_FLASH ∧
     current_model_name s = MODEL_PRO ∨
   current_model_name (state_of (cycle_ai_model s)) = MODEL_PRO ∧
     current_model_name s ≠ MODEL_PRO) ∧
  state_of (cycle_prompt_mode (state_of (cycle_prompt_mode (state_of (cycle_prompt_mode s)))))
    = state_of (cycle_prompt_mode s) ∧
  state_of (cycle_ai_model (state_of (cycle_ai_model (state_of (cycle_ai_model s)))))
    = state_of (cycle_ai_model s).
Proof.
  destruct s as [sh ct rec fr th ev model mode last].
  unfold cycle_prompt_mode, cycle_ai_model; run_m.
  cbn [current_prompt_mode current_model_name set_current_prompt_mode
       set_current_model_name shift_pressed ctrl_pressed is_recording audio_frames
       recording_thread recording_stop_event last_hotkey_time].
  split; [| split; [| split]].
  - destruct (String.eqb_spec mode PROMPT_MODE_ASSISTANT); auto.
  - destruct (String.eqb_spec model MODEL_PRO); auto.
  - by destruct (String.eqb mode PROMPT_MODE_ASSISTANT).
  - by destruct (String.eqb model MODEL_PRO).
Qed.

(** X4. The two toggles are independent: each leaves the other setting,
    the modifier flags, the recording session and the debounce stamp alone,
    and they commute. *)
Theorem cycles_commute (s : state) :
  state_of (cycle_ai_model (state_of (cycle_prompt_mode s)))
    = state_of (cycle_prompt_mode (state_of (cycle_ai_model s))) ∧
  state_of (cycle_prompt_mode s)
    = set_current_prompt_mode (current_prompt_mode (state_of (cycle_prompt_mode s))) s ∧
  state_of (cycle_ai_model s)
    = set_current_model_name (current_model_name (state_of (cycle_ai_model s))) s.
Proof. by destruct s. Qed.

(** ** Submission pipeline *)

Lemma clipboard_copies_app (es1 es2 : list effect) :
  clipboard_copies (es1 ++ es2) = clipboard_copies es1 ++ clipboard_copies es2.
Proof. apply omap_app. Qed.

Lemma logs_app (es1 es2 : list effect) : logs (es1 ++ es2) = logs es1 ++ logs es2.
Proof. apply omap_app. Qed.

Lemma clipboard_copies_cleanup (env : gemini_env) (up : option uploaded_file) :
  clipboard_copies (cleanup_effects env up) = [].
Proof. destruct up; [| reflexivity]. cbn. by destruct (delete_file_raises env). Qed.

Lemma clipboard_copies_empty_response (response : response_t) :
  clipboard_copies (empty_response_logs response) = [].
Proof.
  unfold empty_response_logs.
  destruct (prompt_feedback response) as [fb |]; [| reflexivity].
  destruct (truthy (block_reason fb)); [| reflexivity].
  unfold blocked_report. cbn.
  induction (safety_ratings fb) as [| r rs IH]; [reflexivity | exact IH].
Qed.

(** What a submission shows, copies and ends with, by the text of the
    generation and the answer of the clipboard. *)
Lemma submit_audio_to_gemini_observed (env : gemini_env) (p : path) (s : state) :
  let r := submit_audio_to_gemini env p s in
  result_of r = match generated_text env, pyperclip_copy_raises env with
                | Some _, None => Returns tt
                | _, _ => Raises AttributeError_Caution
                end ∧
  notifications (effects_of r)
    = match generated_text env, pyperclip_copy_raises env with
      | Some t, None => [("Gemini Response", strip t, SMS)]
      | _, _ => []
      end ∧
  clipboard_copies (effects_of r)
    = match generated_text env with Some t => [strip t] | None => [] end.
Proof.
  cbn zeta. rewrite submit_audio_to_gemini_run. proj_m.
  rewrite !notifications_app, !clipboard_copies_app,
    notifications_cleanup, clipboard_copies_cleanup, !app_nil_r.
  unfold generated_text, gemini_try, gemini_generate; run_m.
  destruct (upload_file env) as [f | e]; [| done].
  destruct (generate_content env) as [response | e]; [| done].
  destruct (parts response) as [[| part ps] | e]; [| | done].
  - rewrite report_empty_response_run. cbn [fst snd]. rewrite !app_nil_r.
    change (UploadFile ?a ?b :: GenerateContent ?m ?q ?g :: ?es)
      with ([UploadFile a b; GenerateContent m q g] ++ es).
    rewrite !notifications_app, !clipboard_copies_app,
      notifications_empty_response, clipboard_copies_empty_response.
    done.
  - destruct (text response) as [t | e]; [| done].
    by destruct (pyperclip_copy_raises env).
Qed.

(** X5. A run of [submit_audio_to_gemini] shows the user at most one
    notification: exactly one when it returns, and none when it is left by
    an exception, which is then the [AttributeError] of [audio.Caution].  It
    returns exactly when the upload and the generation returned, the
    response has parts and a text, and the copy to the clipboard went
    through; every other run is silent for the user. *)
Theorem submit_notifies_on_success_only (env : gemini_env) (p : path) (s : state) :
  let r := submit_audio_to_gemini env p s in
  (result_of r = Returns tt →
     (∃ t, generated_text env = Some t ∧
           notifications (effects_of r) = [("Gemini Response", strip t, SMS)]) ∧
     pyperclip_copy_raises env = None) ∧
  (∀ e, result_of r = Raises e →
     e = AttributeError_Caution ∧ notifications (effects_of r) = []) ∧
  (∀ t, generated_text env = Some t → pyperclip_copy_raises env = None →
     result_of r = Returns tt).
Proof.
  cbn zeta. destruct (submit_audio_to_gemini_observed env p s) as (-> & -> & _).
  destruct (generated_text env) as [t |], (pyperclip_copy_raises env) as [c |];
    (split; [| split]); try done; try (by intros e [= <-]).
  intros _. split; [by exists t | done].
Qed.

Lemma submit_notifies_on_success_only_witness :
  let p := Path AUDIO_DIRECTORY_PATH "rec_fkeys_20250101_120000.wav" in
  result_of (submit_audio_to_gemini gemini_ok p initial_state) = Returns tt ∧
  notifications (effects_of (submit_audio_to_gemini upload_failure_env p initial_state)) = [].
Proof.
  intros p. split.
  - destruct (submit_notifies_on_success_only gemini_ok p initial_state) as (_ & _ & Hok).
    exact (Hok "Hello world" eq_refl eq_refl).
  - destruct (submit_notifies_on_success_only upload_failure_env p initial_state)
      as (_ & Hraise & _).
    exact (proj2 (Hraise _ eq_refl)).
Defined.

(** X6. The clipboard is written only by a successful generation: whenever
    a run of [submit_audio_to_gemini] copies a text, the upload and the
    generation returned, the response had parts, and the text copied is the
    text of the response stripped as [str.strip()] strips it.  After such a
    generation the text is copied exactly once.  When the copy returns, the
    "Gemini Response" notification carries the text and the call returns;
    when the copy raises, the failure is logged, no notification is shown
    and the call is left by the [AttributeError] of [audio.Caution]. *)
Theorem clipboard_only_on_success (env : gemini_env) (p : path) (s : state) :
  let r := submit_audio_to_gemini env p s in
  let es := effects_of r in
  (∀ c, c ∈ clipboard_copies es →
     ∃ f response ps t,
       upload_file env = Returns f ∧ generate_content env = Returns response ∧
       parts response = Returns ps ∧ ps ≠ [] ∧ text response = Returns t ∧ c = strip t) ∧
  (∀ f response ps t,
     upload_file env = Returns f → generate_content env = Returns response →
     parts response = Returns ps → ps ≠ [] → text response = Returns t →
     clipboard_copies es = [strip t] ∧
     (pyperclip_copy_raises env = None →
        result_of r = Returns tt ∧
        notifications es = [("Gemini Response", strip t, SMS)]) ∧
     (∀ e_clip, pyperclip_copy_raises env = Some e_clip →
        result_of r = Raises AttributeError_Caution ∧
        notifications es = [] ∧
        Log ERROR ("Failed to copy AI response to clipboard: " +:+ e_clip) ∈ es)).
Proof.
  cbn zeta. destruct (submit_audio_to_gemini_observed env p s) as (Hres & Hnot & Hclip).
  split.
  - intros c. rewrite Hclip. unfold generated_text.
    destruct (upload_file env) as [f | e]; [| by intros ?%elem_of_nil].
    destruct (generate_content env) as [response | e]; [| by intros ?%elem_of_nil].
    destruct (parts response) as [[| part ps] | e] eqn:Hparts;
      [by intros ?%elem_of_nil | | by intros ?%elem_of_nil].
    destruct (text response) as [t | e] eqn:Htext; [| by intros ?%elem_of_nil].
    intros ->%list_elem_of_singleton. by exists f, response, (part :: ps), t.
  - intros f response ps t Hup Hgen Hparts Hne Htext.
    assert (Hgt : generated_text env = Some t).
    { unfold generated_text. rewrite Hup, Hgen, Hparts, Htext. by destruct ps. }
    rewrite Hres, Hnot, Hclip, Hgt. split; [reflexivity |]. split.
    + by intros ->.
    + intros e_clip Hc. rewrite Hc. split; [reflexivity |]. split; [reflexivity |].
      rewrite submit_audio_to_gemini_run. proj_m.
      apply elem_of_app. left.
      unfold gemini_try, gemini_generate; run_m.
      rewrite Hup, Hgen, Hparts. destruct ps as [| part ps]; [done |].
      rewrite Htext, Hc. cbn. apply list_elem_of_In. cbn. tauto.
Qed.

Lemma clipboard_only_on_success_witness :
  let p := Path AUDIO_DIRECTORY_PATH "rec_fkeys_20250101_120000.wav" in
  let response :=
    Response (Returns ["Hello"]) None (Returns (NBSP +:+ " Hello world" +:+ LF)) in
  let env := GeminiEnv (Returns uploaded_example) (Returns response)
                       (Some "Pyperclip could not find a copy/paste mechanism") None in
  let r := submit_audio_to_gemini env p initial_state in
  clipboard_copies (effects_of r) = ["Hello world"] ∧
  notifications (effects_of r) = [] ∧
  result_of r = Raises AttributeError_Caution.
Proof.
  intros p response env r.
  destruct (clipboard_only_on_success env p initial_state) as (_ & Hok).
  destruct (Hok uploaded_example response ["Hello"] _ eq_refl eq_refl eq_refl
              ltac:(discriminate) eq_refl) as (Hcopy & _ & Hfail).
  destruct (Hfail _ eq_refl) as (Hres & Hnot & _).
  exact (conj Hcopy (conj Hnot Hres)).
Defined.

(** X7. A failed generation is told apart in the log and nowhere else: of
    two submissions whose [generate_content] raised, in whatever states,
    the log records are the same only if the two exceptions are caught by
    the same [except] clause; every such submission shows no notification
    and is left by the [AttributeError] of [audio.Caution], after its
    ERROR record and the deletion of the uploaded file. *)
Theorem failed_generations_differ_in_log (p : path) (s1 s2 : state)
    (env1 env2 : gemini_env) (f1 f2 : uploaded_file) (e1 e2 : exception) :
  upload_file env1 = Returns f1 → generate_content env1 = Raises e1 →
  upload_file env2 = Returns f2 → generate_content env2 = Raises e2 →
  let r1 := submit_audio_to_gemini env1 p s1 in
  let r2 := submit_audio_to_gemini env2 p s2 in
  r1 = (Raises AttributeError_Caution, s1,
        request_effects s1 p f1 ++ [except_log e1 s1] ++ cleanup_effects env1 (Some f1)) ∧
  notifications (effects_of r1) = [] ∧
  (logs (effects_of r1) = logs (effects_of r2) →
   except_clause (exc_class e1) = except_clause (exc_class e2)).
Proof.
  intros Hup1 Hgen1 Hup2 Hgen2.
  assert (Hrun : ∀ env f e s, upload_file env = Returns f → generate_content env = Raises e →
            submit_audio_to_gemini env p s
              = (Raises AttributeError_Caution, s,
                 request_effects s p f ++ [except_log e s] ++ cleanup_effects env (Some f))).
  { intros env f e s Hup Hgen. rewrite submit_audio_to_gemini_run.
    unfold gemini_try, gemini_generate; run_m. by rewrite Hup, Hgen. }
  cbn zeta. rewrite (Hrun env1 f1 e1 s1 Hup1 Hgen1), (Hrun env2 f2 e2 s2 Hup2 Hgen2).
  proj_m. split; [reflexivity |]. split.
  - rewrite !notifications_app, notifications_cleanup. reflexivity.
  - rewrite !logs_app. unfold except_log.
    destruct (exc_class e1), (exc_class e2); cbn; intros H;
      (reflexivity || discriminate H).
Qed.

Lemma failed_generations_differ_in_log_witness :
  let p := Path AUDIO_DIRECTORY_PATH "rec_fkeys_20250101_120000.wav" in
  let env := GeminiEnv (Returns uploaded_example)
                       (Raises (Exception_ NotFound "404 models/x is not found")) None None in
  let r := submit_audio_to_gemini env p initial_state in
  result_of r = Raises AttributeError_Caution ∧
  logs (effects_of r)
    = [(ERROR, "MODEL ERROR! Model 'gemini-2.5-pro-preview-03-25' not found or invalid.")].
Proof.
  intros p env r.
  destruct (failed_generations_differ_in_log p initial_state initial_state env env
              uploaded_example uploaded_example _ _ eq_refl eq_refl eq_refl eq_refl)
    as (Hr & _).
  subst r. rewrite Hr. split; reflexivity.
Defined.

(** ** Hotkey handlers *)

Lemma hotkey_action_modifiers (env : stop_env) (s : state) :
  shift_pressed (state_of (hotkey_action env s)) = shift_pressed s ∧
  ctrl_pressed (state_of (hotkey_action env s)) = ctrl_pressed s.
Proof.
  rewrite hotkey_action_cases.
  destruct (shift_pressed s) eqn:Hsh, (ctrl_pressed s) eqn:Hct; try done.
  destruct (is_recording s) eqn:Hrec.
  - by rewrite stop_audio_recording_active.
  - by rewrite start_audio_recording_idle.
Qed.

Lemma finalize_report_nonempty (env : stop_env) (frames : list block) :
  finalize_report env frames ≠ [].
Proof. by destruct frames. Qed.

(** An action that is attempted always emits something. *)
Lemma hotkey_action_effects (env : stop_env) (s : state) :
  shift_pressed s && ctrl_pressed s = false → effects_of (hotkey_action env s) ≠ [].
Proof.
  rewrite hotkey_action_cases.
  destruct (shift_pressed s), (ctrl_pressed s); try done.
  destruct (is_recording s) eqn:Hrec.
  - rewrite stop_audio_recording_active by done. proj_m. intros _ Happ.
    apply app_eq_nil in Happ as [_ Hfin]. by apply finalize_report_nonempty in Hfin.
  - by rewrite start_audio_recording_idle.
Qed.

(** X8. Only a press of the trigger key acts.  A press of any other key
    and a release of any key emit nothing and change at most the modifier
    flags: the session, the frames, the settings and the debounce stamp stay
    as they are. *)
Theorem only_trigger_press_acts (t : Q) (env : stop_env) (k : key) (s : state) :
  (k ≠ TRIGGER_KEY →
     effects_of (on_key_press t env k s) = [] ∧
     same_but_modifiers s (state_of (on_key_press t env k s))) ∧
  effects_of (on_key_release k s) = [] ∧
  same_but_modifiers s (state_of (on_key_release k s)).
Proof.
  rewrite on_key_press_cases, on_key_release_cases. unfold same_but_modifiers.
  split; [intros Hk |]; by destruct k.
Qed.

Lemma only_trigger_press_acts_witness :
  effects_of (on_key_press 10 env_ok (Key_other "ctrl") two_block_session) = [] ∧
  state_of (on_key_press 10 env_ok (Key_other "ctrl") two_block_session) = two_block_session.
Proof.
  destruct (only_trigger_press_acts 10 env_ok (Key_other "ctrl") two_block_session)
    as (Hpress & _).
  split; [exact (proj1 (Hpress ltac:(discriminate))) | reflexivity].
Defined.

(** X9. The two shift keys share one flag, and so do the two ctrl keys: a
    press of either key sets it and a release of either key clears it,
    whichever key was pressed before.  So releasing one shift key while the
    other is still held leaves the flag cleared. *)
Theorem modifier_keys_share_flag (t : Q) (env : stop_env) (k1 k2 : key) (s : state) :
  (k1 ∈ [Key_shift; Key_shift_r] → k2 ∈ [Key_shift; Key_shift_r] →
     state_of (on_key_press t env k1 s) = set_shift_pressed true s ∧
     state_of (on_key_release k2 (state_of (on_key_press t env k1 s)))
       = set_shift_pressed false s) ∧
  (k1 ∈ [Key_ctrl_l; Key_ctrl_r] → k2 ∈ [Key_ctrl_l; Key_ctrl_r] →
     state_of (on_key_press t env k1 s) = set_ctrl_pressed true s ∧
     state_of (on_key_release k2 (state_of (on_key_press t env k1 s)))
       = set_ctrl_pressed false s).
Proof.
  rewrite on_key_press_cases, on_key_release_cases.
  split; intros H1 H2;
    repeat (apply elem_of_cons in H1 as [-> | H1]; [| try by apply elem_of_nil in H1]);
    repeat (apply elem_of_cons in H2 as [-> | H2]; [| try by apply elem_of_nil in H2]);
    done.
Qed.

Lemma modifier_keys_share_flag_witness :
  let both_held :=
    state_of (on_key_press 2 env_ok Key_shift_r
               (state_of (on_key_press 1 env_ok Key_shift initial_state))) in
  shift_pressed both_held = true ∧
  shift_pressed (state_of (on_key_release Key_shift_r both_held)) = false.
Proof.
  intros both_held. split; [reflexivity |].
  destruct (modifier_keys_share_flag 2 env_ok Key_shift_r Key_shift_r
              (state_of (on_key_press 1 env_ok Key_shift initial_state))) as (Hshift & _).
  assert (Hin : Key_shift_r ∈ [Key_shift; Key_shift_r]) by (right; left).
  exact (f_equal shift_pressed (proj2 (Hshift Hin Hin))).
Defined.

(** X10. A press of the trigger key never changes the modifier flags, so a
    modifier that is held stays in effect from one press to the next: with
    shift held, ctrl not held and a valid prompt mode, two presses that are
    both accepted bring the prompt mode back, and all that is left of them
    in the globals is the stamp of the second press. *)
Theorem held_shift_toggles_back (t1 t2 : Q) (env1 env2 : stop_env) (s : state) :
  (shift_pressed (state_of (on_key_press t1 env1 TRIGGER_KEY s)) = shift_pressed s ∧
   ctrl_pressed (state_of (on_key_press t1 env1 TRIGGER_KEY s)) = ctrl_pressed s) ∧
  (shift_pressed s = true → ctrl_pressed s = false →
   current_prompt_mode s = PROMPT_MODE_TRANSCRIBE ∨
   current_prompt_mode s = PROMPT_MODE_ASSISTANT →
   ¬ (t1 - last_hotkey_time s < DEBOUNCE)%Q →
   ¬ (t2 - t1 < DEBOUNCE)%Q →
   state_of (press_all [(t1, env1); (t2, env2)] s) = set_last_hotkey_time t2 s).
Proof.
  split.
  - rewrite on_key_press_trigger.
    destruct (Qltb _ _); [done |]. cbn zeta. proj_m.
    pose proof (hotkey_action_modifiers env1 s) as [Hsh Hct].
    by destruct (result_of (hotkey_action env1 s)) as [[] |].
  - intros Hsh Hct Hmode Hout1 Hout2.
    apply Qltb_ge in Hout1, Hout2.
    set (s1 := set_last_hotkey_time t1 (state_of (cycle_prompt_mode s))).
    assert (H1 : on_key_press t1 env1 TRIGGER_KEY s
                 = (Returns tt, s1, effects_of (cycle_prompt_mode s))).
    { by rewrite on_key_press_trigger, Hout1, hotkey_action_cases, Hsh, Hct, lift_run. }
    assert (H2 : on_key_press t2 env2 TRIGGER_KEY s1
                 = (Returns tt, set_last_hotkey_time t2 (state_of (cycle_prompt_mode s1)),
                    effects_of (cycle_prompt_mode s1))).
    { rewrite on_key_press_trigger.
      change (last_hotkey_time s1) with t1. rewrite Hout2, hotkey_action_cases.
      change (shift_pressed s1) with (shift_pressed s).
      change (ctrl_pressed s1) with (ctrl_pressed s).
      by rewrite Hsh, Hct, lift_run. }
    cbn [press_all foldr]; run_m. rewrite H1, H2. cbn [fst snd]. subst s1.
    destruct s as [sh ct rec fr th ev model mode last].
    cbn in Hmode. destruct Hmode as [-> | ->]; reflexivity.
Qed.

Lemma held_shift_toggles_back_witness :
  let s := set_shift_pressed true initial_state in
  state_of (press_all [(10, env_ok); (11, env_ok)]%Q s) = set_last_hotkey_time 11 s.
Proof.
  intros s.
  destruct (held_shift_toggles_back 10 11 env_ok env_ok s) as (_ & Hback).
  apply Hback; try reflexivity.
  - right. reflexivity.
  - apply Qltb_ge. reflexivity.
  - apply Qltb_ge. reflexivity.
Defined.

(** X11. A key press that returns arms the debounce exactly when it did
    something.  A press that emits any effect is a press of the trigger key
    outside the window, and if it returns it has stamped [last_hotkey_time]
    with its clock reading; a press of the trigger key outside the window
    with at most one modifier held always emits an effect; and a press that
    is left by an exception leaves the stamp as it was. *)
Theorem press_acts_iff_stamps (t : Q) (env : stop_env) (k : key) (s : state) :
  let r := on_key_press t env k s in
  (effects_of r ≠ [] →
     k = TRIGGER_KEY ∧ ¬ (t - last_hotkey_time s < DEBOUNCE)%Q ∧
     (result_of r = Returns tt → last_hotkey_time (state_of r) = t)) ∧
  (k = TRIGGER_KEY → ¬ (t - last_hotkey_time s < DEBOUNCE)%Q →
   shift_pressed s && ctrl_pressed s = false →
     effects_of r ≠ [] ∧
     (result_of r = Returns tt → last_hotkey_time (state_of r) = t)) ∧
  (∀ e, result_of r = Raises e → last_hotkey_time (state_of r) = last_hotkey_time s).
Proof.
  cbn zeta.
  assert (Hstamp : ∀ b, shift_pressed s && ctrl_pressed s = false →
            result_of (hotkey_action env s) = Returns b → b = true).
  { intros [] Hboth Hres; [done |].
    apply hotkey_action_none in Hres. congruence. }
  split; [| split].
  - rewrite on_key_press_cases. destruct k; try done.
    rewrite on_key_press_trigger.
    destruct (Qltb _ _) eqn:Hq; [done |]. apply Qltb_ge in Hq.
    cbn zeta. proj_m. intros Heff. split; [done |]. split; [exact Hq |].
    destruct (shift_pressed s && ctrl_pressed s) eqn:Hboth.
    + exfalso. apply Heff. rewrite hotkey_action_cases.
      apply andb_true_iff in Hboth as [-> ->]. reflexivity.
    + destruct (result_of (hotkey_action env s)) as [b |]; [| done].
      by rewrite (Hstamp b eq_refl eq_refl).
  - intros -> Hq Hboth. apply Qltb_ge in Hq.
    rewrite on_key_press_trigger, Hq. cbn zeta. proj_m.
    split; [by apply hotkey_action_effects |].
    destruct (result_of (hotkey_action env s)) as [b |]; [| done].
    by rewrite (Hstamp b Hboth eq_refl).
  - intros e. rewrite on_key_press_cases. destruct k; try done.
    rewrite on_key_press_trigger.
    destruct (Qltb _ _); [done |]. cbn zeta. proj_m.
    pose proof (hotkey_action_last_hotkey_time env s) as Hlast.
    by destruct (result_of (hotkey_action env s)) as [[] |].
Qed.

Lemma press_acts_iff_stamps_witness :
  let r := on_key_press 10 env_ok TRIGGER_KEY (set_ctrl_pressed true initial_state) in
  effects_of r ≠ [] ∧ last_hotkey_time (state_of r) = 10%Q ∧
  last_hotkey_time (state_of (on_key_press 10 env_ok TRIGGER_KEY empty_session)) = 0%Q.
Proof.
  intros r.
  destruct (press_acts_iff_stamps 10 env_ok TRIGGER_KEY (set_ctrl_pressed true initial_state))
    as (_ & Hacts & _).
  destruct (press_acts_iff_stamps 10 env_ok TRIGGER_KEY empty_session) as (_ & _ & Hraise).
  assert (Hout : ¬ (10 - last_hotkey_time (set_ctrl_pressed true initial_state) < DEBOUNCE)%Q)
    by (apply Qltb_ge; reflexivity).
  destruct (Hacts eq_refl Hout eq_refl) as (Heff & Hlast).
  split; [exact Heff |]. split; [exact (Hlast eq_refl) |].
  exact (Hraise _ eq_refl).
Defined.

(** ** Recording from press to press *)

Lemma set_audio_frames_app_nil (s : state) : set_audio_frames (audio_frames s ++ []) s = s.
Proof. destruct s. cbn. by rewrite app_nil_r. Qed.

Lemma audio_recording_worker_append_run (b : block) (s : state) :
  audio_recording_worker_append b s
    = (tt,
       if recording_stop_event s then s else set_audio_frames (audio_frames s ++ [b]) s,
       []).
Proof.
  unfold audio_recording_worker_append; run_m. by destruct (recording_stop_event s).
Qed.

(** While the stop event is clear the worker appends every block, in order. *)
Lemma audio_recording_worker_appends (blocks : list block) (s : state) :
  recording_stop_event s = false →
  foldr (λ b k, audio_recording_worker_append b;; k) (mret tt) blocks s
    = (tt, set_audio_frames (audio_frames s ++ blocks) s, []).
Proof.
  revert s. induction blocks as [| b blocks IH]; intros s Hev.
  - cbn [foldr]. run_m. by rewrite set_audio_frames_app_nil.
  - cbn [foldr]. run_m. rewrite audio_recording_worker_append_run, Hev.
    rewrite IH by (by destruct s). destruct s. cbn. by rewrite <- app_assoc.
Qed.

Lemma audio_recording_worker_capture_run (blocks : list block) (s : state) :
  audio_recording_worker_capture blocks s
    = (tt, set_audio_frames blocks (set_recording_stop_event false s), []).
Proof.
  unfold audio_recording_worker_capture, audio_recording_worker_begin. run_m.
  rewrite audio_recording_worker_appends by (by destruct s). by destruct s.
Qed.

(** X12. A whole recording, from any idle state with no modifier held and
    whatever old frames the globals still hold: an accepted press, the
    worker starting and appending at least one block, and a second accepted
    press whose [write_wav] returns.  The one file written and handed to the
    one Gemini thread holds exactly the blocks of this recording,
    concatenated in order; the session ends idle with the frames cleared. *)
Theorem record_session_round_trip (t1 t2 : Q) (env1 env2 : stop_env)
    (blocks : list block) (s : state) :
  is_recording s = false → shift_pressed s = false → ctrl_pressed s = false →
  ¬ (t1 - last_hotkey_time s < DEBOUNCE)%Q →
  ¬ (t2 - t1 < DEBOUNCE)%Q →
  blocks ≠ [] →
  write_wav_raises env2 = None →
  let r := record_session t1 env1 blocks t2 env2 s in
  wav_writes (effects_of r) = [concat blocks] ∧
  spawned (effects_of r) = [recording_path env2] ∧
  handed_off (effects_of r) = [concat blocks] ∧
  is_recording (state_of r) = false ∧
  audio_frames (state_of r) = [] ∧
  last_hotkey_time (state_of r) = t2.
Proof.
  intros Hrec Hsh Hct Hout1 Hout2 Hne Hw r. subst r.
  apply Qltb_ge in Hout1, Hout2.
  set (s1 := set_last_hotkey_time t1
               (set_recording_thread (Some AudioRecordThread) (set_is_recording true s))).
  assert (H1 : on_key_press t1 env1 TRIGGER_KEY s
               = (Returns tt, s1,
                  [Notification "Recording Started" "Speak now..." LoopingCall2;
                   StartThread AudioRecordThread])).
  { rewrite on_key_press_trigger, Hout1, hotkey_action_cases, Hsh, Hct, Hrec.
    by rewrite start_audio_recording_idle. }
  set (s2 := set_audio_frames blocks (set_recording_stop_event false s1)).
  destruct blocks as [| b blocks]; [done |].
  assert (H3 : on_key_press t2 env2 TRIGGER_KEY s2
               = (Returns tt, set_last_hotkey_time t2 (stopped s2),
                  join_report env2 s2 ++ finalize_report env2 (b :: blocks))).
  { rewrite on_key_press_trigger.
    change (last_hotkey_time s2) with t1. rewrite Hout2, hotkey_action_cases.
    change (shift_pressed s2) with (shift_pressed s).
    change (ctrl_pressed s2) with (ctrl_pressed s).
    change (is_recording s2) with true. rewrite Hsh, Hct.
    rewrite stop_audio_recording_active by done.
    change (audio_frames s2) with (b :: blocks). unfold stop_outcome. by rewrite Hw. }
  assert (Hrs : record_session t1 env1 (b :: blocks) t2 env2 s
                = (Returns tt, set_last_hotkey_time t2 (stopped s2),
                   [Notification "Recording Started" "Speak now..." LoopingCall2;
                    StartThread AudioRecordThread]
                   ++ join_report env2 s2 ++ finalize_report env2 (b :: blocks))).
  { unfold record_session. unfold mbind, E_bind. rewrite H1. cbn iota beta.
    rewrite lift_run, audio_recording_worker_capture_run. proj_m. cbn iota beta.
    fold s2. rewrite H3. reflexivity. }
  rewrite Hrs. proj_m. cbn [app].
  unfold finalize_report. rewrite Hw.
  change (join_report env2 s2) with
    (if thread_is_alive env2 && thread_is_alive_after_join env2
     then [Log ERROR "Audio recording thread did not finish in time!"] else []).
  destruct (thread_is_alive env2 && thread_is_alive_after_join env2);
    unfold handed_off, written; cbn; rewrite decide_True by reflexivity; done.
Qed.

Lemma record_session_round_trip_witness :
  let stale := set_audio_frames [[7; 7; 7]]%Z initial_state in
  let r := record_session 10 env_ok [[1; 2]; [3]]%Z 15 env_ok stale in
  wav_writes (effects_of r) = [[1; 2; 3]%Z] ∧ audio_frames (state_of r) = [].
Proof.
  intros stale r.
  assert (H1 : ¬ (10 - last_hotkey_time stale < DEBOUNCE)%Q) by (apply Qltb_ge; reflexivity).
  assert (H2 : ¬ (15 - 10 < DEBOUNCE)%Q) by (apply Qltb_ge; reflexivity).
  destruct (record_session_round_trip 10 15 env_ok env_ok [[1; 2]; [3]]%Z stale
              eq_refl eq_refl eq_refl H1 H2 ltac:(discriminate) eq_refl)
    as (Hw & _ & _ & _ & Hfr & _).
  exact (conj Hw Hfr).
Defined.

(** X13. A join of the recording thread that times out does not change
    what a stop does: with the thread still alive after
    [join(timeout=2.0)] the call ends as it does with a thread that
    finished, returning or raising alike, in the same globals and with the
    same effects, after one ERROR log record. *)
Theorem join_timeout_only_logged (ts : string) (wr : option string) (s : state) :
  is_recording s = true → recording_thread s ≠ None →
  stop_audio_recording_and_process (StopEnv true true ts wr) s
    = (result_of (stop_audio_recording_and_process (StopEnv true false ts wr) s),
       state_of (stop_audio_recording_and_process (StopEnv true false ts wr) s),
       Log ERROR "Audio recording thread did not finish in time!"
         :: effects_of (stop_audio_recording_and_process (StopEnv true false ts wr) s)).
Proof.
  intros Hrec Hth. rewrite !stop_audio_recording_active by done. proj_m.
  unfold join_report. destruct (recording_thread s); [reflexivity | done].
Qed.

Lemma join_timeout_only_logged_witness :
  effects_of (stop_audio_recording_and_process
                (StopEnv true true "20250101_120000" None) two_block_session)
    = Log ERROR "Audio recording thread did not finish in time!"
        :: effects_of (stop_audio_recording_and_process env_ok two_block_session).
Proof.
  exact (f_equal snd (join_timeout_only_logged "20250101_120000" None two_block_session
                        eq_refl ltac:(discriminate))).
Defined.

(** X14. A crash of the recording worker does not reset the session: the
    handler logs the crash and is then left by the [AttributeError] of
    [audio.Caution] (line 156), before the lines that set [is_recording] to
    [False], so the globals stay as they were and no notification is shown.
    The next accepted press of the trigger key alone on such a session
    therefore stops it, as if the worker were still running, and starts no
    new recording thread. *)
Theorem crash_leaves_session_recording (e : string) (t : Q) (env : stop_env) (s : state) :
  is_recording s = true →
  shift_pressed s = false → ctrl_pressed s = false →
  ¬ (t - last_hotkey_time s < DEBOUNCE)%Q →
  let crash := audio_recording_worker_crash e s in
  let r := on_key_press t env TRIGGER_KEY (state_of crash) in
  crash = (Raises AttributeError_Caution, s,
           [Log ERROR "CRITICAL ERROR in audio recording thread!"]) ∧
  effects_of r = effects_of (stop_audio_recording_and_process env s) ∧
  is_recording (state_of r) = false ∧
  StartThread AudioRecordThread ∉ effects_of r.
Proof.
  intros Hrec Hsh Hct Hout crash r. apply Qltb_ge in Hout.
  split; [reflexivity |].
  assert (Hr : effects_of r = effects_of (stop_audio_recording_and_process env s) ∧
               is_recording (state_of r) = false).
  { subst r crash. change (state_of (audio_recording_worker_crash e s)) with s.
    rewrite on_key_press_trigger, Hout, hotkey_action_cases, Hsh, Hct, Hrec.
    rewrite stop_audio_recording_active by done. proj_m. cbn zeta.
    split; [reflexivity |]. by destruct (stop_outcome env (audio_frames s)) as [[] |]. }
  destruct Hr as [Heff Hidle]. split; [exact Heff |]. split; [exact Hidle |].
  rewrite Heff, stop_audio_recording_active by done. proj_m.
  intros [Hin | Hin]%elem_of_app.
  - destruct (join_report_cases env s) as [Hj | Hj]; rewrite Hj in Hin;
      apply list_elem_of_In in Hin; cbn in Hin; intuition discriminate.
  - unfold finalize_report in Hin.
    destruct (audio_frames s); [| destruct (write_wav_raises env)];
      apply list_elem_of_In in Hin; cbn in Hin; intuition discriminate.
Qed.

Lemma crash_leaves_session_recording_witness :
  let crashed := state_of (audio_recording_worker_crash "PortAudioError" two_block_session) in
  let r := on_key_press 10 env_ok TRIGGER_KEY crashed in
  is_recording crashed = true ∧ is_recording (state_of r) = false ∧
  wav_writes (effects_of r) = [[1; 2; 3]%Z].
Proof.
  intros crashed r.
  assert (H : ¬ (10 - last_hotkey_time two_block_session < DEBOUNCE)%Q)
    by (apply Qltb_ge; reflexivity).
  destruct (crash_leaves_session_recording "PortAudioError" 10 env_ok two_block_session
              eq_refl eq_refl eq_refl H) as (Hcrash & Heff & Hidle & _).
  split; [exact (f_equal (λ c, is_recording (state_of c)) Hcrash) |].
  split; [exact Hidle |].
  subst r crashed. by rewrite Heff.
Defined.

(** ** Invariants of the running program *)

Lemma on_key_press_recording_has_thread (t : Q) (env : stop_env) (k : key) (s : state) :
  recording_has_thread s → recording_has_thread (state_of (on_key_press t env k s)).
Proof.
  intros Hinv. rewrite on_key_press_cases. destruct k; try exact Hinv.
  rewrite on_key_press_trigger. destruct (Qltb _ _); [exact Hinv |]. cbn zeta. proj_m.
  assert (Hact : recording_has_thread (state_of (hotkey_action env s))).
  { rewrite hotkey_action_cases.
    destruct (shift_pressed s), (ctrl_pressed s); try exact Hinv.
    destruct (is_recording s) eqn:Hrec.
    - by rewrite stop_audio_recording_active.
    - by rewrite start_audio_recording_idle. }
  by destruct (result_of (hotkey_action env s)) as [[] |].
Qed.

Lemma step_recording_has_thread (w : system) (ev : event) :
  recording_has_thread (globals w) → recording_has_thread (globals (step w ev)).
Proof.
  intros Hinv. destruct ev; cbn [step]; unfold run_handler; cbn [globals].
  - by apply on_key_press_recording_has_thread.
  - rewrite on_key_release_cases. by destruct k.
  - exact Hinv.
  - rewrite audio_recording_worker_append_run. proj_m.
    by destruct (recording_stop_event (globals w)).
  - exact Hinv.
  - destruct (gemini_threads w !! i); [| exact Hinv].
    cbn [globals]. by rewrite submit_audio_to_gemini_run.
Qed.

(** X15. In every reachable state of the running program, a session that
    is recording has its recording thread registered in [recording_thread]
    (so a stop always finds the thread it has to join); every event keeps
    this. *)
Theorem recording_thread_registered :
  (∀ w ev, recording_has_thread (globals w) → recording_has_thread (globals (step w ev))) ∧
  (∀ w, reachable w → recording_has_thread (globals w)).
Proof.
  split; [exact step_recording_has_thread |].
  intros w (evs & ->).
  assert (Hrun : ∀ evs w0, recording_has_thread (globals w0) →
                           recording_has_thread (globals (run evs w0))).
  { clear. induction evs as [| ev evs IH]; intros w0 H0; [exact H0 |].
    cbn [run foldl]. apply IH. by apply step_recording_has_thread. }
  apply Hrun. discriminate.
Qed.

Lemma recording_thread_registered_witness :
  let w := run [KeyPress 10 env_ok Key_f9; WorkerBegin; WorkerBlock [1]%Z] initial_system in
  is_recording (globals w) = true ∧ recording_thread (globals w) = Some AudioRecordThread.
Proof.
  intros w. split; [reflexivity |].
  destruct recording_thread_registered as (_ & Hreach).
  apply (Hreach w); [by eexists | reflexivity].
Defined.

Lemma written_paths_app (es1 es2 : list effect) :
  written_paths (es1 ++ es2) = written_paths es1 ++ written_paths es2.
Proof. apply omap_app. Qed.

Lemma uploads_app (es1 es2 : list effect) :
  uploads (es1 ++ es2) = uploads es1 ++ uploads es2.
Proof. apply omap_app. Qed.

Lemma spawned_app (es1 es2 : list effect) :
  spawned (es1 ++ es2) = spawned es1 ++ spawned es2.
Proof. apply omap_app. Qed.

Lemma reporting_no_paths (es : list effect) :
  forallb reporting es = true → uploads es = [] ∧ spawned es = [].
Proof.
  induction es as [| e es IH]; [done |].
  cbn [forallb]. intros [He Hes]%andb_true_iff.
  destruct e; try discriminate He; exact (IH Hes).
Qed.

(** Closes a goal about effects that name no path. *)
Ltac no_paths :=
  split; [reflexivity | by intros p Hp; cbn in Hp; apply elem_of_nil in Hp].

(** A key press uploads nothing, and the file of every Gemini thread it
    starts is one it has passed to the wav writer. *)
Lemma on_key_press_paths (t : Q) (env : stop_env) (k : key) (s : state) :
  let es := effects_of (on_key_press t env k s) in
  uploads es = [] ∧ ∀ p, p ∈ spawned es → p ∈ written_paths es.
Proof.
  cbn zeta. rewrite on_key_press_cases. destruct k; try no_paths.
  rewrite on_key_press_trigger. destruct (Qltb _ _); [no_paths |]. cbn zeta. proj_m.
  rewrite hotkey_action_cases.
  destruct (shift_pressed s), (ctrl_pressed s); try no_paths.
  destruct (is_recording s) eqn:Hrec.
  - rewrite stop_audio_recording_active by done. proj_m.
    rewrite uploads_app, spawned_app, written_paths_app.
    assert (Hjoin : uploads (join_report env s) = [] ∧ spawned (join_report env s) = []).
    { by destruct (join_report_cases env s) as [-> | ->]. }
    destruct Hjoin as [-> ->]. unfold finalize_report.
    destruct (audio_frames s); [no_paths |].
    destruct (write_wav_raises env); [no_paths |].
    split; [done |]. intros p Hp. apply elem_of_app. right. exact Hp.
  - rewrite start_audio_recording_idle by done. no_paths.
Qed.

(** A Gemini thread uploads the file it was started with, and nothing
    else; it starts no thread. *)
Lemma submit_audio_to_gemini_paths (env : gemini_env) (p : path) (s : state) :
  let es := effects_of (submit_audio_to_gemini env p s) in
  uploads es = [p] ∧ spawned es = [].
Proof.
  cbn zeta. rewrite submit_audio_to_gemini_run. proj_m.
  rewrite !uploads_app, !spawned_app.
  destruct (reporting_no_paths _ (gemini_try_except_reporting env p s)) as [-> ->].
  destruct (gemini_try_effects env p s) as (rest & Hrest & ->).
  destruct (reporting_no_paths _ Hrest) as [Hup Hsp].
  assert (Hfin : ∀ up, uploads (cleanup_effects env up) = [] ∧
                       spawned (cleanup_effects env up) = []).
  { intros [f |]; [| done]. cbn. by destruct (delete_file_raises env). }
  destruct (Hfin (result_of (gemini_try env p s)).1) as [-> ->].
  destruct (upload_file env) as [f | e]; [| done].
  change (uploads (UploadFile p (name p) :: GenerateContent ?m ?q f :: rest))
    with (p :: uploads rest).
  change (spawned (UploadFile p (name p) :: GenerateContent ?m ?q f :: rest))
    with (spawned rest).
  by rewrite Hup, Hsp.
Qed.

Lemma run_handler_uploads_were_written {A} (m : M A) (w : system) :
  uploads_were_written w →
  (∀ p, p ∈ uploads (effects_of (m (globals w))) → p ∈ written_paths (trace w)) →
  (∀ p, p ∈ spawned (effects_of (m (globals w))) →
        p ∈ written_paths (effects_of (m (globals w)))) →
  uploads_were_written (run_handler m w).
Proof.
  intros [Hth Hup] Hnew Hsp. unfold uploads_were_written, run_handler. cbn [gemini_threads trace].
  rewrite written_paths_app, uploads_app.
  split; intros p [Hp | Hp]%elem_of_app; apply elem_of_app; auto.
Qed.

Lemma step_uploads_were_written (w : system) (ev : event) :
  uploads_were_written w → uploads_were_written (step w ev).
Proof.
  intros Hinv. destruct ev; cbn [step].
  - destruct (on_key_press_paths current_time env k (globals w)) as [Hup Hsp].
    apply run_handler_uploads_were_written; [done | | done].
    intros p. rewrite Hup. by intros ?%elem_of_nil.
  - apply run_handler_uploads_were_written; [done | |];
      rewrite on_key_release_cases; intros p; by destruct k; intros ?%elem_of_nil.
  - apply run_handler_uploads_were_written; [done | |]; intros p; by intros ?%elem_of_nil.
  - apply run_handler_uploads_were_written; [done | |];
      rewrite audio_recording_worker_append_run; intros p; by intros ?%elem_of_nil.
  - apply run_handler_uploads_were_written; [done | |]; intros p; by intros ?%elem_of_nil.
  - destruct (gemini_threads w !! i) as [p |] eqn:Hp; [| done].
    destruct (submit_audio_to_gemini_paths env p (globals w)) as [Hup Hsp].
    destruct Hinv as [Hth Hold].
    apply run_handler_uploads_were_written; cbn [globals trace].
    + split; [| exact Hold]. cbn [gemini_threads trace].
      intros q Hq%list_elem_of_delete_inv. by apply Hth.
    + intros q. rewrite Hup. intros ->%list_elem_of_singleton.
      apply Hth. by eapply list_elem_of_lookup_2.
    + intros q. rewrite Hsp. by intros ?%elem_of_nil.
Qed.

(** X16. The running program never uploads a file it has not written: in
    every reachable state, each path a Gemini thread is waiting with and
    each path uploaded so far has already been passed to the wav writer;
    every event keeps this. *)
Theorem uploads_only_of_written_files :
  (∀ w ev, uploads_were_written w → uploads_were_written (step w ev)) ∧
  (∀ w, reachable w → uploads_were_written w).
Proof.
  split; [exact step_uploads_were_written |].
  intros w (evs & ->).
  assert (Hrun : ∀ evs w0, uploads_were_written w0 → uploads_were_written (run evs w0)).
  { clear. induction evs as [| ev evs IH]; intros w0 H0; [exact H0 |].
    cbn [run foldl]. apply IH. by apply step_uploads_were_written. }
  apply Hrun. split; intros p; by intros ?%elem_of_nil.
Qed.

Lemma uploads_only_of_written_files_witness :
  let w := run (session_events ++ [GeminiRun 0 gemini_ok]) initial_system in
  uploads (trace w) = [Path AUDIO_DIRECTORY_PATH "rec_fkeys_20250101_120000.wav"] ∧
  Path AUDIO_DIRECTORY_PATH "rec_fkeys_20250101_120000.wav" ∈ written_paths (trace w).
Proof.
  intros w. split; [reflexivity |].
  destruct uploads_only_of_written_files as (_ & Hreach).
  destruct (Hreach w ltac:(by eexists)) as [_ Hup].
  apply Hup. left.
Defined.

(** ** File names and independence *)

Lemma string_length_append (a b : string) :
  String.length (a +:+ b) = (String.length a + String.length b)%nat.
Proof.
  induction a as [| c a IH]; [reflexivity |].
  change (S (String.length (a +:+ b)) = S (String.length a + String.length b)).
  by rewrite IH.
Qed.

Lemma string_append_inj_r (a b c : string) : a +:+ c = b +:+ c → a = b.
Proof.
  revert b. induction a as [| x a IH]; intros [| y b] H.
  - reflexivity.
  - apply (f_equal String.length) in H. rewrite !string_length_append in H. cbn in H. lia.
  - apply (f_equal String.length) in H. rewrite !string_length_append in H. cbn in H. lia.
  - change (String x (a +:+ c) = String y (b +:+ c)) in H.
    injection H as -> H. f_equal. by apply IH.
Qed.

(** X17. The file a stop writes is named after the clock alone: two stops
    of sessions with captured audio write to the same path exactly when
    [strftime] gave them the same text, so recordings stamped differently
    never overwrite each other and two stamped alike do. *)
Theorem recordings_collide_iff_same_stamp (env1 env2 : stop_env) (s1 s2 : state) :
  is_recording s1 = true → audio_frames s1 ≠ [] →
  is_recording s2 = true → audio_frames s2 ≠ [] →
  (written_paths (effects_of (stop_audio_recording_and_process env1 s1))
     = written_paths (effects_of (stop_audio_recording_and_process env2 s2))
   ↔ strftime_now env1 = strftime_now env2).
Proof.
  intros Hrec1 Hfr1 Hrec2 Hfr2.
  assert (Hpath : ∀ env s, is_recording s = true → audio_frames s ≠ [] →
            written_paths (effects_of (stop_audio_recording_and_process env s))
              = [recording_path env]).
  { intros env s Hrec Hfr. rewrite stop_audio_recording_active by done. proj_m.
    rewrite written_paths_app. unfold finalize_report.
    destruct (audio_frames s); [done |].
    destruct (join_report_cases env s) as [-> | ->]; by destruct (write_wav_raises env). }
  rewrite (Hpath env1 s1 Hrec1 Hfr1), (Hpath env2 s2 Hrec2 Hfr2).
  unfold recording_path. split.
  - intros [= H].
    exact (string_append_inj_r (strftime_now env1) (strftime_now env2) ".wav" H).
  - by intros ->.
Qed.

Lemma recordings_collide_iff_same_stamp_witness :
  written_paths (effects_of (stop_audio_recording_and_process env_ok two_block_session))
    = written_paths (effects_of (stop_audio_recording_and_process save_failure_env
                                   two_block_session)).
Proof.
  apply (recordings_collide_iff_same_stamp env_ok save_failure_env two_block_session
           two_block_session eq_refl ltac:(discriminate) eq_refl ltac:(discriminate)).
  reflexivity.
Defined.

(** X18. A submission looks at the two settings and at nothing else in the
    globals: run in two states with the same model and prompt mode it emits
    the same effects, whatever the modifier flags, the recording session
    and the debounce stamp are.  So a recording started while a submission
    is under way does not touch that submission. *)
Theorem submission_reads_settings_only (env : gemini_env) (p : path) (s s' : state) :
  current_model_name s' = current_model_name s →
  current_prompt_mode s' = current_prompt_mode s →
  effects_of (submit_audio_to_gemini env p s') = effects_of (submit_audio_to_gemini env p s).
Proof.
  intros Hmodel Hmode. rewrite !submit_audio_to_gemini_run. proj_m.
  assert (Htry : gemini_try env p s' = (result_of (gemini_try env p s), s',
                                        effects_of (gemini_try env p s))).
  { unfold gemini_try, gemini_generate; run_m.
    destruct (upload_file env); [| done]. rewrite Hmodel, Hmode.
    destruct (generate_content env) as [response |]; [| done].
    destruct (parts response) as [[| part ps] |]; [| | done].
    - by rewrite !report_empty_response_run.
    - destruct (text response); [| done]. by destruct (pyperclip_copy_raises env). }
  rewrite Htry. proj_m.
  assert (Hexc : ∀ e, except_log e s' = except_log e s).
  { intros e. unfold except_log. by rewrite Hmodel. }
  by destruct (result_of (gemini_try env p s)).2; rewrite ?Hexc.
Qed.

Lemma submission_reads_settings_only_witness :
  let p := Path AUDIO_DIRECTORY_PATH "rec_fkeys_20250101_120000.wav" in
  effects_of (submit_audio_to_gemini gemini_ok p two_block_session)
    = effects_of (submit_audio_to_gemini gemini_ok p initial_state).
Proof.
  intros p.
  exact (submission_reads_settings_only gemini_ok p initial_state two_block_session
           eq_refl eq_refl).
Defined.
